(** * Synch.Live camera core: detection and annotation

    A shallow embedding of [python/camera/core/detection.py] and the
    properties of its four entry points: [log_detected],
    [draw_annotations] (with [draw_bbox]), [detect_blobs] and
    [detect_colour].

    The module is a thin layer over OpenCV.  Python-level behaviour
    (loops, formatting, exceptions, the log and the files written) is
    embedded from the source; the OpenCV primitives the source calls are
    either an interface ([Cv2]) or, where a property needs what they
    compute, small models with their own doc comments. *)

From Stdlib Require Import ZArith List String Ascii Bool Lia.
From Stdlib Require Import DecimalString SpecFloat QArith.
From Stdlib Require DecimalPos DecimalZ Finite.
Import ListNotations.

Local Open Scope string_scope.
Local Open Scope Z_scope.

(** ** Python values *)

Module Py.

(** Python's [str] on an [int]. *)
Definition str (z : Z) : string := NilZero.string_of_int (Z.to_int z).

(** Exceptions the module can raise. [ZeroDivisionError] is the [w / h]
    of [detect_colour]; [ValueError] and [OverflowError] come from [int()]
    on a NaN or an infinity. The other two are [cv2.error]: [BadArgument]
    when OpenCV's binding cannot convert an argument of a call
    (code -5, "Overload resolution failed"), [Cv2Error] when the call
    itself refuses its input (an assertion on a zero-size image, the
    validation of detector parameters). *)
Inductive exn : Type :=
| ZeroDivisionError
| ValueError
| OverflowError
| BadArgument
| Cv2Error.

Inductive result (A : Type) : Type :=
| Ok (a : A)
| Raise (e : exn).
Arguments Ok {A} a.
Arguments Raise {A} e.

(** [enumerate(xs)], counting from [start]. *)
Fixpoint enumerate_from {A} (start : Z) (xs : list A) : list (Z * A) :=
  match xs with
  | [] => []
  | x :: xs' => (start, x) :: enumerate_from (start + 1) xs'
  end.

Definition enumerate {A} (xs : list A) : list (Z * A) := enumerate_from 0 xs.

(** [len(xs)] as a Python int. *)
Definition len {A} (xs : list A) : Z := Z.of_nat (List.length xs).

End Py.
Export Py.

(** ** Binary64 floats

    Python floats are IEEE 754 binary64; they are represented by the
    Standard Library's specification [spec_float] at precision 53. *)

Module F64.

Definition prec : Z := 53.
Definition emax : Z := 1024.

Definition float : Type := spec_float.

Definition div : float -> float -> float := SFdiv prec emax.
Definition leb : float -> float -> bool := SFleb.

(** [float(z)], round to nearest even. *)
Definition of_Z (z : Z) : float := binary_normalize prec emax z 0 false.

Definition is_nan (f : float) : bool :=
  match f with S754_nan => true | _ => false end.

Definition is_finite (f : float) : bool :=
  match f with S754_zero _ | S754_finite _ _ _ => true | _ => false end.

(** The literals of the source. [0.8] is [0x1.999999999999ap-1], [1.2] is
    [0x1.3333333333333p+0], [0.5] and [0.9] likewise. *)
Definition f0_8 : float := S754_finite false 7205759403792794 (-53).
Definition f1_2 : float := S754_finite false 5404319552844595 (-52).
Definition f0_5 : float := S754_finite false 4503599627370496 (-53).
Definition f0_9 : float := S754_finite false 8106479329266893 (-53).

(** Exact comparison of a float with a Python int, as [float.__ge__] and
    [float.__le__] do it: no rounding of the integer. A NaN compares
    false. *)
Definition cmp_Z (f : float) (n : Z) : option comparison :=
  match f with
  | S754_nan => None
  | S754_infinity s => Some (if s then Lt else Gt)
  | S754_zero _ => Some (0 ?= n)
  | S754_finite s m e =>
      let v := if s then Z.neg m else Z.pos m in
      match e with
      | Z0 => Some (v ?= n)
      | Zpos p => Some (v * 2 ^ Zpos p ?= n)
      | Zneg p => Some (v ?= n * 2 ^ Zpos p)
      end
  end.

Definition ge_Z (f : float) (n : Z) : bool :=
  match cmp_Z f n with Some (Gt | Eq) => true | _ => false end.

Definition le_Z (f : float) (n : Z) : bool :=
  match cmp_Z f n with Some (Lt | Eq) => true | _ => false end.

(** The integer part of a finite float, toward zero ([float.__trunc__]). *)
Definition trunc (f : float) : option Z :=
  match f with
  | S754_zero _ => Some 0
  | S754_finite s m e =>
      let a := Z.shiftl (Z.pos m) e in
      Some (if s then - a else a)
  | _ => None
  end.

(** The rational a finite float denotes. *)
Definition to_Q (f : float) : option Q :=
  match f with
  | S754_zero _ => Some (0 # 1)%Q
  | S754_finite s m e =>
      let v := if s then Z.neg m else Z.pos m in
      match e with
      | Z0 => Some (v # 1)%Q
      | Zpos p => Some ((v * 2 ^ Zpos p) # 1)%Q
      | Zneg p => Some (v # (2 ^ p)%positive)%Q
      end
  | _ => None
  end.

End F64.

(** The binary32 floats of OpenCV's parameter structures. *)
Module F32.

Definition prec : Z := 24.
Definition emax : Z := 128.

Definition float : Type := spec_float.

(** A double cast to a C [float]: rounded to nearest even, to an infinity
    beyond the largest [float]. *)
Definition of_double (f : F64.float) : float :=
  match f with
  | S754_finite s m e =>
      binary_normalize prec emax (if s then Z.neg m else Z.pos m) e s
  | _ => f
  end.

(** A Python int stored in a C [float]: OpenCV's binding converts the int
    to a double and casts the double. *)
Definition of_Z (z : Z) : float := of_double (F64.of_Z z).

End F32.

(** Python's numbers as far as this module meets them. *)
Inductive pynum : Type :=
| PyInt (z : Z)
| PyFloat (f : F64.float).

(** [int(x)]: an int is returned as it is, a float is truncated toward
    zero; a NaN raises [ValueError], an infinity [OverflowError]. *)
Definition py_int (x : pynum) : result Z :=
  match x with
  | PyInt z => Ok z
  | PyFloat f =>
      match F64.trunc f with
      | Some z => Ok z
      | None => if F64.is_nan f then Raise ValueError else Raise OverflowError
      end
  end.

(** [a / b] on two ints. CPython divides the two operands as doubles when
    both are below 2^53 in magnitude, which is every coordinate a cv2
    rectangle can hold; the quotient is then correctly rounded. *)
Definition py_truediv (a b : Z) : result F64.float :=
  if b =? 0 then Raise ZeroDivisionError
  else Ok (F64.div (F64.of_Z a) (F64.of_Z b)).

(** ** Images, contours and rectangles *)

(** One 8-bit channel value is a [Z] in [0, 255]; a pixel is (B, G, R), or
    (H, S, V) after conversion. An image is a list of rows. *)
Definition pixel : Type := Z * Z * Z.
Definition image (A : Type) : Type := list (list A).
Definition Frame : Type := image pixel.
Definition Mask : Type := image Z.

Definition u8 (v : Z) : Prop := 0 <= v <= 255.
Definition u8_pixel (p : pixel) : Prop :=
  let '(a, b, c) := p in u8 a /\ u8 b /\ u8 c.

(** [frame.shape[0]] and [frame.shape[1]]. *)
Definition shape0 {A} (img : image A) : Z := len img.
Definition shape1 {A} (img : image A) : Z := len (hd [] img).

(** A zero-size image: no row, or no column. *)
Definition is_empty {A} (img : image A) : bool :=
  (shape0 img =? 0) || (shape1 img =? 0).

(** The length of every row. *)
Definition dims {A} (img : image A) : list nat := map (@List.length A) img.

(** The 32-bit ints of OpenCV's [int], [cv::Point] and [cv::Rect]. *)
Definition int32 (z : Z) : Prop := - 2 ^ 31 <= z < 2 ^ 31.
Definition int32b (z : Z) : bool := (- 2 ^ 31 <=? z) && (z <? 2 ^ 31).

(** 32-bit two's complement arithmetic: the result of an [int] operation. *)
Definition wrap32 (z : Z) : Z := (z + 2 ^ 31) mod 2 ^ 32 - 2 ^ 31.

Definition Point : Type := Z * Z.
Definition Contour : Type := list Point.
(** ( x, y, width, height ) *)
Definition Rect : Type := Z * Z * Z * Z.
Definition Colour : Type := Z * Z * Z.

Inductive Font : Type := FONT_HERSHEY_SIMPLEX.

(** What [cv2.imwrite] is given: a three-channel or a one-channel image. *)
Inductive Picture : Type :=
| Colour3 (f : Frame)
| Grey1 (m : Mask).

Record KeyPoint : Type := {
  kp_x : F64.float;
  kp_y : F64.float;
  kp_size : F64.float
}.

(** The fields of [cv2.SimpleBlobDetector_Params] the module assigns;
    every other field keeps the library's default. The thresholds are C
    [float]s: a Python number assigned to one is rounded to binary32. *)
Record SimpleBlobDetector_Params : Type := {
  filterByColor : bool;
  blobColor : Z;
  filterByArea : bool;
  minArea : F32.float;
  maxArea : F32.float;
  filterByCircularity : bool;
  minCircularity : F32.float
}.

(** [params.field = value] for a C [float] field and a Python int. The
    conversion of the int to a double raises [OverflowError] when the int
    is too large for one. *)
Definition float_field (value : Z) : result F32.float :=
  if F64.is_finite (F64.of_Z value) then Ok (F32.of_Z value)
  else Raise OverflowError.

(** [cv2.SimpleBlobDetector_Params()]. *)
Definition SimpleBlobDetector_Params_new : SimpleBlobDetector_Params :=
  {| filterByColor := true; blobColor := 0;
     filterByArea := true;
     minArea := F32.of_Z 25; maxArea := F32.of_Z 5000;
     filterByCircularity := false;
     minCircularity := F32.of_double F64.f0_8 |}.

(** [cv2.SimpleBlobDetector_create(params)]: the OpenCV releases that
    validate the parameters raise on a parameter out of range, and of the
    fields the module assigns the areas can fail the validation, which asks
    for [0 < minArea <= maxArea]. *)
Definition SimpleBlobDetector_create (params : SimpleBlobDetector_Params)
  : result SimpleBlobDetector_Params :=
  if SFltb (S754_zero false) (minArea params)
     && SFleb (minArea params) (maxArea params)
  then Ok params
  else Raise Cv2Error.

(** ** The world outside the interpreter

    The log sink of [logging], the image files written so far (oldest
    first; a name can occur more than once, the last entry is the file's
    content) and the wall clock. *)

Record datetime : Type := {
  year : Z; month : Z; day : Z; hour : Z; minute : Z; second : Z
}.

Record World : Type := {
  log : list string;
  disk : list (string * Picture);
  clock : datetime
}.

(** The content of file [name]: the last picture written under it. *)
Definition read_file (name : string) (d : list (string * Picture))
  : option Picture :=
  match find (fun e => String.eqb (fst e) name) (rev d) with
  | Some e => Some (snd e)
  | None => None
  end.

(** ** Computations: state and exceptions *)

Definition M (A : Type) : Type := World -> World * result A.

Definition ret {A} (a : A) : M A := fun w => (w, Ok a).

Definition bind {A B} (m : M A) (k : A -> M B) : M B :=
  fun w =>
    match m w with
    | (w', Ok a) => k a w'
    | (w', Raise e) => (w', Raise e)
    end.

Definition lift {A} (r : result A) : M A := fun w => (w, r).

Declare Scope py_scope.
Delimit Scope py_scope with py.
Notation "x <- m ;; k" := (bind m (fun x => k))
  (at level 61, m at next level, right associativity) : py_scope.
Notation "m ;; k" := (bind m (fun _ => k))
  (at level 61, right associativity) : py_scope.
Local Open Scope py_scope.

(** [for x in xs: body(x)]. *)
Fixpoint for_each {A} (xs : list A) (body : A -> M unit) : M unit :=
  match xs with
  | [] => ret tt
  | x :: xs' => body x ;; for_each xs' body
  end.

(** [for x in xs: s = body(s, x)], for a loop that updates one variable. *)
Fixpoint for_fold {A S} (xs : list A) (s : S) (body : S -> A -> M S) : M S :=
  match xs with
  | [] => ret s
  | x :: xs' => s' <- body s x ;; for_fold xs' s' body
  end.

(** [if c: body]. *)
Definition when (c : bool) (body : M unit) : M unit :=
  if c then body else ret tt.

(** [logging.info(line)]. *)
Definition logging_info (line : string) : M unit :=
  fun w => ({| log := log w ++ [line]; disk := disk w; clock := clock w |},
            Ok tt).

(** [cv2.imwrite(name, img)]; the result of the call is discarded by the
    source. *)
Definition imwrite (name : string) (img : Picture) : M unit :=
  fun w => ({| log := log w; disk := disk w ++ [(name, img)];
               clock := clock w |}, Ok tt).

(** [datetime.datetime.now()]. *)
Definition datetime_now : M datetime := fun w => (w, Ok (clock w)).

(** Two digits, zero padded: [%y], [%m], [%d], [%H], [%M], [%S]. *)
Definition pad2 (n : Z) : string :=
  if n <? 10 then "0" ++ str n else str n.

(** [timestamp.strftime("%y-%m-%d %H:%M:%S")]. *)
Definition strftime (t : datetime) : string :=
  pad2 (year t mod 100) ++ "-" ++ pad2 (month t) ++ "-" ++ pad2 (day t)
  ++ " " ++ pad2 (hour t) ++ ":" ++ pad2 (minute t) ++ ":" ++ pad2 (second t).

(** ** OpenCV

    OpenCV is a library: none of it is under src/. The pixel-wise and
    point-set primitives are written out, each as the specification of the
    module describes the step it performs; colour conversion, contour
    tracing, contour area, the blob detector and the drawing primitives are
    the interface [Cv2]. *)

Module Cv.

(** Modelled from the spec: [cv2.inRange] is OpenCV's. "Pixel set to on
    iff its HSV value lies componentwise within [min_hsv, max_hsv]
    inclusive"; on is 255, off is 0. *)
Definition in_range (p lo hi : pixel) : bool :=
  let '(p0, p1, p2) := p in
  let '(l0, l1, l2) := lo in
  let '(h0, h1, h2) := hi in
  (l0 <=? p0) && (p0 <=? h0) && (l1 <=? p1) && (p1 <=? h1)
  && (l2 <=? p2) && (p2 <=? h2).

Definition inRange (src : Frame) (lowerb upperb : pixel) : Mask :=
  map (map (fun p => if in_range p lowerb upperb then 255 else 0)) src.

(** [np.ones((h, w), "uint8")]. *)
Definition np_ones (h w : nat) : Mask := repeat (repeat 1 w) h.

(** The pixel at row [y], column [x], if there is one. *)
Definition at_ (m : Mask) (y x : Z) : option Z :=
  if (y <? 0) || (x <? 0) then None
  else match nth_error m (Z.to_nat y) with
       | Some row => nth_error row (Z.to_nat x)
       | None => None
       end.

(** The offsets, from the anchor at its centre, of the non-zero entries of
    a structuring element. *)
Definition kernel_offsets (kernel : Mask) : list (Z * Z) :=
  let ay := shape0 kernel / 2 in
  let ax := shape1 kernel / 2 in
  flat_map
    (fun '(ky, row) =>
       flat_map (fun '(kx, v) => if v =? 0 then [] else [(ky - ay, kx - ax)])
                (enumerate row))
    (enumerate kernel).

(** Modelled from the spec: [cv2.dilate] is OpenCV's. "Dilate the mask
    with a structuring element (one iteration)", which "grows foreground
    regions": a pixel becomes the maximum of the source over the kernel's
    footprint around it; pixels outside the image do not count. *)
Definition dilate (src kernel : Mask) : Mask :=
  let offs := kernel_offsets kernel in
  map (fun '(y, row) =>
         map (fun '(x, _) =>
                fold_left
                  (fun acc '(dy, dx) =>
                     match at_ src (y + dy) (x + dx) with
                     | Some v => Z.max acc v
                     | None => acc
                     end)
                  offs 0)
             (enumerate row))
      (enumerate src).

(** Modelled from the spec: [cv2.bitwise_and(src1, src2, mask=mask)] is
    OpenCV's. "Apply mask to the original frame (pixels outside mask
    zeroed)": the channel-wise conjunction where the mask is set, black
    elsewhere. *)
Definition bitwise_and (src1 src2 : Frame) (mask : Mask) : Frame :=
  map (fun '(r1, r2, mrow) =>
         map (fun '(p1, p2, m) =>
                if m =? 0 then (0, 0, 0)
                else let '(a1, b1, c1) := p1 in
                     let '(a2, b2, c2) := p2 in
                     (Z.land a1 a2, Z.land b1 b2, Z.land c1 c2))
             (combine (combine r1 r2) mrow))
      (combine (combine src1 src2) mask).

(** Modelled from the spec: [cv2.bitwise_not] is OpenCV's. "Invert the
    frame (each channel value v -> 255 - v)": the complement of the eight
    bits of a channel, which [not8_spec] shows to be [255 - v]. *)
Definition not8 (v : Z) : Z := Z.land (Z.lnot v) 255.

Definition bitwise_not (src : Frame) : Frame :=
  map (map (fun '(a, b, c) => (not8 a, not8 b, not8 c))) src.

(** Modelled from the spec: [cv2.boundingRect] on a point set is OpenCV's
    and not under src/. It is the minimal axis-aligned rectangle enclosing
    the pixels of the set, in pixel coordinates: width and height count
    pixels, so one point has a box of 1 by 1; an empty set has the empty
    rectangle. The four fields of the rectangle are 32-bit ints, and the
    width and the height are computed in them: they wrap. *)
Definition pointSetBoundingRect (pts : Contour) : Rect :=
  match pts with
  | [] => (0, 0, 0, 0)
  | (x0, y0) :: rest =>
      let xmin := fold_left Z.min (map fst rest) x0 in
      let xmax := fold_left Z.max (map fst rest) x0 in
      let ymin := fold_left Z.min (map snd rest) y0 in
      let ymax := fold_left Z.max (map snd rest) y0 in
      (wrap32 xmin, wrap32 ymin,
       wrap32 (xmax - xmin + 1), wrap32 (ymax - ymin + 1))
  end.

(** What the source hands to [cv2.boundingRect]: a contour (an array of
    points) in [detect_colour], a [cv2.KeyPoint] object in [detect_blobs]. *)
Inductive array_arg : Type :=
| PointArray (pts : Contour)
| KeyPointObject (k : KeyPoint).

(** [cv2.boundingRect(array)]. OpenCV documents [array] as a grey-scale
    image or a 2D point set; the Python binding converts a numpy array to
    it and rejects any other object, a [cv2.KeyPoint] among them, with an
    error ("Expected Ptr<cv::UMat> for argument 'array'"). *)
Definition boundingRect (array : array_arg) : result Rect :=
  match array with
  | PointArray pts => Ok (pointSetBoundingRect pts)
  | KeyPointObject _ => Raise BadArgument
  end.

End Cv.
Export Cv.

(** The rest of OpenCV, as the module uses it: what each call computes
    once it has accepted its arguments. The errors of the calls are with
    the calls, below. *)
Class Cv2 : Type := {
  (** [cv2.cvtColor(_, cv2.COLOR_BGR2HSV)] on one pixel *)
  bgr2hsv : pixel -> pixel;
  (** [cv2.cvtColor(_, cv2.COLOR_BGR2GRAY)] on one pixel *)
  bgr2gray : pixel -> Z;
  (** [cv2.findContours(_, cv2.RETR_TREE, cv2.CHAIN_APPROX_SIMPLE)[0]] *)
  findContours : Mask -> list Contour;
  (** [cv2.contourArea] *)
  contourArea : Contour -> F64.float;
  (** [cv2.SimpleBlobDetector_create(params).detect(frame)] *)
  SimpleBlobDetector_detect : SimpleBlobDetector_Params -> Frame -> list KeyPoint;
  (** the image [cv2.rectangle(img, rec, color, thickness)] paints *)
  draw_rectangle : Frame -> Rect -> Colour -> Z -> Frame;
  (** [cv2.putText(img, text, org, fontFace, fontScale, color, thickness)] *)
  putText : Frame -> string -> Point -> Font -> F64.float -> Colour -> Z -> Frame
}.

(** The default [thickness] of [cv2.putText]. [putText] has no error
    path here: the origin it is given is (10, [shape[0] - 10]) or the
    corner of a rectangle that [cv2.rectangle] has just accepted, and those
    are 32-bit ints for every image OpenCV can hold. *)
Definition putText_default_thickness : Z := 1.

(** The colour conversions, pixel by pixel. *)
Definition pixels_BGR2HSV `{Cv2} (src : Frame) : Frame := map (map bgr2hsv) src.
Definition pixels_BGR2GRAY `{Cv2} (src : Frame) : Mask := map (map bgr2gray) src.

(** [cv2.cvtColor(src, code)]: OpenCV asserts that the source is not a
    zero-size image. *)
Definition cvtColor_BGR2HSV `{Cv2} (src : Frame) : result Frame :=
  if is_empty src then Raise Cv2Error else Ok (pixels_BGR2HSV src).

Definition cvtColor_BGR2GRAY `{Cv2} (src : Frame) : result Mask :=
  if is_empty src then Raise Cv2Error else Ok (pixels_BGR2GRAY src).

(** [cv2.rectangle(img, rec, color, thickness)]: the four numbers of [rec]
    are converted to C [int]s, and one that is no 32-bit int makes the
    binding raise. *)
Definition rectangle `{Cv2} (img : Frame) (rec : Rect) (color : Colour)
           (thickness : Z) : result Frame :=
  let '(x, y, w, h) := rec in
  if int32b x && int32b y && int32b w && int32b h
  then Ok (draw_rectangle img rec color thickness)
  else Raise BadArgument.

(** ** The module [camera.core.detection] *)

Module Detection.

Section Source.
Context `{cv : Cv2}.

(** defaults to bright green *)
Definition MIN_DETECT_HSV : pixel := (50, 100, 140).
Definition MAX_DETECT_HSV : pixel := (85, 255, 255).
Definition MIN_DETECT_CONTOUR : Z := 100.
Definition MAX_DETECT_CONTOUR : Z := 400.

(** A box as the source's annotations have it: four ints. *)
Definition Box : Type := Rect.

(** [f'{box}'] on a tuple of four ints. *)
Definition repr_box (box : Box) : string :=
  let '(x, y, w, h) := box in
  "(" ++ str x ++ ", " ++ str y ++ ", " ++ str w ++ ", " ++ str h ++ ")".

Definition log_detected (boxes : list Box) : M unit :=
  for_each (enumerate boxes)
           (fun '(i, box) => logging_info (str (i + 1) ++ ", " ++ repr_box box)) ;;
  logging_info ("Found " ++ str (len boxes) ++ " blobs in frame.").

Definition draw_bbox (frame : Frame) (player : Z) (rect : Rect) : M Frame :=
  let '(x, y, w, h) := rect in
  frame <- lift (rectangle frame (x, y, w, h) (0, 255, 0) 2) ;;
  let frame := putText frame ("Player" ++ str player) (x, y)
                       FONT_HERSHEY_SIMPLEX F64.f0_5 (0, 255, 0)
                       putText_default_thickness in
  ret frame.

(** A box as a caller can pass it to [draw_annotations]: four numbers. *)
Definition NumBox : Type := pynum * pynum * pynum * pynum.

(** [tuple([int(x) for x in box])] *)
Definition int_tuple (box : NumBox) : M Rect :=
  let '(a, b, c, d) := box in
  x <- lift (py_int a) ;;
  y <- lift (py_int b) ;;
  w <- lift (py_int c) ;;
  h <- lift (py_int d) ;;
  ret (x, y, w, h).

Definition draw_annotations (frame : Frame) (boxes : list NumBox) : M Frame :=
  timestamp <- datetime_now ;;
  let frame := putText frame (strftime timestamp) (10, shape0 frame - 10)
                       FONT_HERSHEY_SIMPLEX F64.f0_5 (255, 255, 255) 1 in
  for_fold (enumerate boxes) frame
           (fun frame '(i, box) =>
              rect <- int_tuple box ;;
              draw_bbox frame (i + 1) rect).

(** The truth value of an int assigned to a boolean field. *)
Definition truthy (v : Z) : bool := negb (v =? 0).

(** [[f(x) for x in xs]] *)
Fixpoint list_comp {A B} (f : A -> M B) (xs : list A) : M (list B) :=
  match xs with
  | [] => ret []
  | x :: xs' => y <- f x ;; ys <- list_comp f xs' ;; ret (y :: ys)
  end.

(** The detector parameters [detect_blobs] builds, assignment by
    assignment; the two areas are Python ints assigned to C [float]s. *)
Definition blob_params (min_area max_area : Z) : M SimpleBlobDetector_Params :=
  let params := SimpleBlobDetector_Params_new in
  let params := {| filterByColor := filterByColor params;
                   blobColor := blobColor params;
                   filterByArea := filterByArea params;
                   minArea := minArea params; maxArea := maxArea params;
                   filterByCircularity := truthy 1;
                   minCircularity := F32.of_double F64.f0_9 |} in
  min_area <- lift (float_field min_area) ;;
  max_area <- lift (float_field max_area) ;;
  let params := {| filterByColor := filterByColor params;
                   blobColor := blobColor params;
                   filterByArea := truthy 1;
                   minArea := min_area;
                   maxArea := max_area;
                   filterByCircularity := filterByCircularity params;
                   minCircularity := minCircularity params |} in
  let params := {| filterByColor := truthy 1;
                   blobColor := 0;
                   filterByArea := filterByArea params;
                   minArea := minArea params; maxArea := maxArea params;
                   filterByCircularity := filterByCircularity params;
                   minCircularity := minCircularity params |} in
  ret params.

Definition detect_blobs (frame : Frame) (min_area max_area : Z)
  : M (list Rect) :=
  let inv_frame := bitwise_not frame in
  params <- blob_params min_area max_area ;;
  detector <- lift (SimpleBlobDetector_create params) ;;
  let blobs := SimpleBlobDetector_detect detector inv_frame in
  bboxes <- list_comp (fun blob => lift (boundingRect (KeyPointObject blob)))
                      blobs ;;
  ret bboxes.

(** [w / h >= 0.8 or w / h <= 1.2]; the second quotient is computed only
    when the first test fails. *)
Definition aspect_test (w h : Z) : M bool :=
  q <- lift (py_truediv w h) ;;
  if F64.leb F64.f0_8 q then ret true
  else q' <- lift (py_truediv w h) ;;
       ret (F64.leb q' F64.f1_2).

(** [box >= min_contour and box <= max_contour] *)
Definition area_test (box : F64.float) (min_contour max_contour : Z) : bool :=
  F64.ge_Z box min_contour && F64.le_Z box max_contour.

(** One turn of the loop over the contours. *)
Definition visit_contour (min_contour max_contour : Z)
           (bboxes : list Rect) (contour : Contour) : M (list Rect) :=
  let box := contourArea contour in
  if area_test box min_contour max_contour then
    rect <- lift (boundingRect (PointArray contour)) ;;
    let '(x, y, w, h) := rect in
    keep <- aspect_test w h ;;
    if keep then ret (bboxes ++ [(x, y, w, h)])%list else ret bboxes
  else ret bboxes.

Definition detect_colour (frame : Frame) (min_hsv max_hsv : pixel)
           (min_contour max_contour : Z) (dump : bool) : M (list Rect) :=
  hsv_frame <- lift (cvtColor_BGR2HSV frame) ;;
  let green_mask := inRange hsv_frame min_hsv max_hsv in
  when dump (imwrite "hsv_frame.jpg" (Colour3 hsv_frame) ;;
             imwrite "green_mask.jpg" (Grey1 green_mask)) ;;
  let kernel := np_ones 5 5 in
  let green_mask := dilate green_mask kernel in
  when dump (imwrite "green_mask_dilated.jpg" (Grey1 green_mask)) ;;
  let res := bitwise_and frame frame green_mask in
  when dump (imwrite "img_masked.jpg" (Colour3 res)) ;;
  res <- lift (cvtColor_BGR2GRAY res) ;;
  let contours := findContours res in
  bboxes <- for_fold (enumerate contours) []
                     (fun bboxes '(i, contour) =>
                        visit_contour min_contour max_contour bboxes contour) ;;
  log_detected bboxes ;;
  ret bboxes.

End Source.

End Detection.
Import Detection.

(** ** A reference instance of the interface

    An executable stand-in for the OpenCV calls of [Cv2], used to run the
    module on concrete frames. Contour tracing is exact on images whose
    foreground is one filled axis-aligned rectangle (its four corners, from
    the top left, as [CHAIN_APPROX_SIMPLE] keeps them); rectangles are
    outlined one pixel wide and text is not rasterised. *)

Module Reference.

Definition bgr2hsv (p : pixel) : pixel :=
  let '(b, g, r) := p in
  let v := Z.max b (Z.max g r) in
  let d := v - Z.min b (Z.min g r) in
  let s := if v =? 0 then 0 else (255 * d + v / 2) / v in
  let h := if d =? 0 then 0
           else if v =? r then 60 * (g - b) / d
           else if v =? g then 120 + 60 * (b - r) / d
           else 240 + 60 * (r - g) / d in
  let h := if h <? 0 then h + 360 else h in
  (h / 2, s, v).

Definition bgr2gray (p : pixel) : Z :=
  let '(b, g, r) := p in (299 * r + 587 * g + 114 * b + 500) / 1000.

(** The coordinates of the pixels that satisfy [keep]. *)
Definition positions {A} (keep : A -> bool) (img : image A) : list Point :=
  flat_map
    (fun '(y, row) =>
       flat_map (fun '(x, v) => if keep v then [(x, y)] else []) (enumerate row))
    (enumerate img).

Definition corners (pts : list Point) : Contour :=
  let '(x, y, w, h) := pointSetBoundingRect pts in
  [(x, y); (x, y + h - 1); (x + w - 1, y + h - 1); (x + w - 1, y)].

Definition findContours (img : Mask) : list Contour :=
  match positions (fun v => negb (v =? 0)) img with
  | [] => []
  | pts => [corners pts]
  end.

(** Twice the signed area of a closed polygon, by the shoelace formula. *)
Fixpoint shoelace (first prev : Point) (pts : list Point) : Z :=
  let cross (p q : Point) := fst p * snd q - fst q * snd p in
  match pts with
  | [] => cross prev first
  | p :: ps => cross prev p + shoelace first p ps
  end.

Definition contourArea (c : Contour) : F64.float :=
  match c with
  | [] => S754_zero false
  | p :: ps =>
      binary_normalize F64.prec F64.emax (Z.abs (shoelace p p ps)) (-1) false
  end.

(** The detector on an image whose dark pixels fill one axis-aligned
    rectangle of [w] by [h] pixels. The blob's contour runs through the
    centres of its border pixels: its sides are [a = w - 1] and [b = h - 1],
    its area [a * b], its perimeter [2 (a + b)] and its circularity
    [pi a b / (a + b)^2], which is at most [pi / 4]. The area filter keeps
    [minArea <= area < maxArea]; the circularity filter is decided with
    333/106, just below pi. Of the other filters the defaults hold of a
    rectangle that is not too thin; they are not modelled. *)
Definition circular_enough (min_circularity : F32.float) (a b : Z) : bool :=
  match F64.to_Q min_circularity with
  | Some q =>
      Qle_bool (q * inject_Z ((a + b) * (a + b)))
               ((333 # 106) * inject_Z (a * b))
  | None => false
  end.

Definition SimpleBlobDetector_detect (params : SimpleBlobDetector_Params)
           (img : Frame) : list KeyPoint :=
  match positions (fun p => bgr2gray p <? 128) img with
  | [] => []
  | pts =>
      let '(x, y, w, h) := pointSetBoundingRect pts in
      let a := w - 1 in
      let b := h - 1 in
      let area_passes :=
        negb (filterByArea params)
        || (F64.le_Z (minArea params) (a * b)
            && negb (F64.le_Z (maxArea params) (a * b))) in
      let circularity_passes :=
        negb (filterByCircularity params)
        || circular_enough (minCircularity params) a b in
      if area_passes && circularity_passes
      then [{| kp_x := F64.of_Z (x + w / 2); kp_y := F64.of_Z (y + h / 2);
               kp_size := F64.of_Z w |}]
      else []
  end.

Definition on_border (rec : Rect) (col row : Z) : bool :=
  let '(x, y, w, h) := rec in
  (x <=? col) && (col <? x + w) && (y <=? row) && (row <? y + h)
  && ((col =? x) || (col =? x + w - 1) || (row =? y) || (row =? y + h - 1)).

Definition draw_rectangle (img : Frame) (rec : Rect) (color : Colour)
           (thickness : Z) : Frame :=
  map (fun '(row, ps) =>
         map (fun '(col, p) => if on_border rec col row then color else p)
             (enumerate ps))
      (enumerate img).

Definition putText (img : Frame) (text : string) (org : Point) (font : Font)
           (scale : F64.float) (color : Colour) (thickness : Z) : Frame :=
  img.

Definition cv : Cv2 :=
  Build_Cv2 bgr2hsv bgr2gray findContours contourArea
            SimpleBlobDetector_detect draw_rectangle putText.

(** The same, with a detector that reports the keypoints [found] whatever
    it is given: for a run in which OpenCV's detector finds them. *)
Definition reporting (found : list KeyPoint) : Cv2 :=
  Build_Cv2 bgr2hsv bgr2gray findContours contourArea
            (fun _ _ => found) draw_rectangle putText.

(** A black frame of [h] rows and [w] columns with one filled rectangle of
    colour [c]. *)
Definition filled_rect (h w : nat) (rec : Rect) (c : pixel) : Frame :=
  let '(x0, y0, rw, rh) := rec in
  map (fun '(row, ps) =>
         map (fun '(col, p) =>
                if (x0 <=? col) && (col <? x0 + rw)
                   && (y0 <=? row) && (row <? y0 + rh)
                then c else p)
             (enumerate ps))
      (enumerate (repeat (repeat (0, 0, 0) w) h)).

Definition world0 : World :=
  {| log := []; disk := [];
     clock := {| year := 2021; month := 3; day := 9;
                 hour := 14; minute := 5; second := 7 |} |}.

End Reference.

(** * Vocabulary of the properties *)

(** The line logged for the box at (0-based) position [i]. *)
Definition box_line (entry : Z * Box) : string :=
  str (fst entry + 1) ++ ", " ++ repr_box (snd entry).

Definition summary_line (boxes : list Box) : string :=
  "Found " ++ str (len boxes) ++ " blobs in frame.".

(** One call to a drawing primitive, with the arguments it is given, and
    what it paints once the arguments are accepted. *)
Inductive draw_call : Type :=
| Rectangle (rec : Rect) (color : Colour) (thickness : Z)
| Text (text : string) (org : Point) (font : Font) (scale : F64.float)
       (color : Colour) (thickness : Z).

Definition perform `{Cv2} (frame : Frame) (c : draw_call) : Frame :=
  match c with
  | Rectangle rec color thickness => draw_rectangle frame rec color thickness
  | Text text org font scale color thickness =>
      putText frame text org font scale color thickness
  end.

Definition perform_all `{Cv2} (frame : Frame) (calls : list draw_call) : Frame :=
  fold_left perform calls frame.

Definition green : Colour := (0, 255, 0).
Definition white : Colour := (255, 255, 255).

(** What the annotator is specified to draw for the box of player number
    [n]: a green rectangle, 2 px, at the box, and the label at its top-left
    corner. *)
Definition player_calls (n : Z) (box : Rect) : list draw_call :=
  let '(x, y, w, h) := box in
  [ Rectangle (x, y, w, h) green 2;
    Text ("Player" ++ str n) (x, y) FONT_HERSHEY_SIMPLEX F64.f0_5 green 1 ].

(** ... for every box in turn, numbered from [n]. *)
Fixpoint annotation_calls (n : Z) (boxes : list Rect) : list draw_call :=
  match boxes with
  | [] => []
  | box :: rest => (player_calls n box ++ annotation_calls (n + 1) rest)%list
  end.

(** The timestamp, in white, 10 px from the left and 10 px above the bottom
    edge of a frame of height [H]. *)
Definition timestamp_call (t : datetime) (H : Z) : draw_call :=
  Text (strftime t) (10, H - 10) FONT_HERSHEY_SIMPLEX F64.f0_5 white 1.

(** The texts drawn by a sequence of calls. *)
Definition text_labels (calls : list draw_call) : list string :=
  flat_map (fun c => match c with
                     | Text text _ _ _ _ _ => [text]
                     | Rectangle _ _ _ => []
                     end) calls.

(** ["Player1"; ...; "PlayerN"] *)
Definition player_labels (N : nat) : list string :=
  map (fun n => "Player" ++ str (Z.of_nat n)) (seq 1 N).

(** A box of ints, as a box of numbers. *)
Definition of_ints (box : Rect) : NumBox :=
  let '(x, y, w, h) := box in (PyInt x, PyInt y, PyInt w, PyInt h).

(** The numbers [int()] accepts: every int, and the floats that are
    neither NaN nor infinite. *)
Definition num_finite (x : pynum) : Prop :=
  match x with
  | PyInt _ => True
  | PyFloat f => F64.is_finite f = true
  end.

Definition box_finite (box : NumBox) : Prop :=
  let '(a, b, c, d) := box in
  num_finite a /\ num_finite b /\ num_finite c /\ num_finite d.

(** The rational a number denotes, and its integer part toward zero. *)
Definition num_value (x : pynum) : option Q :=
  match x with
  | PyInt z => Some (z # 1)%Q
  | PyFloat f => F64.to_Q f
  end.

Definition Qtrunc (q : Q) : Z := Z.quot (Qnum q) (Z.pos (Qden q)).

Definition toward_zero (x : pynum) : Z :=
  match num_value x with
  | Some q => Qtrunc q
  | None => 0
  end.

Definition truncated (box : NumBox) : Rect :=
  let '(a, b, c, d) := box in
  (toward_zero a, toward_zero b, toward_zero c, toward_zero d).

(** A rectangle [cv2.rectangle] accepts: four 32-bit ints. *)
Definition rect_int32 (r : Rect) : Prop :=
  let '(x, y, w, h) := r in int32 x /\ int32 y /\ int32 w /\ int32 h.

(** A box [draw_annotations] can draw: [int()] accepts its coordinates and
    the ints it returns are 32-bit ints. *)
Definition box_drawable (box : NumBox) : Prop :=
  box_finite box /\ rect_int32 (truncated box).

(** The shape of a frame: rows and columns (the channels are in the type). *)
Definition shape {A} (img : image A) : Z * Z := (shape0 img, shape1 img).

(** [int_tuple] converts [box] to [rect], whatever the state. *)
Definition converts `{Cv2} (box : NumBox) (rect : Rect) : Prop :=
  forall w, int_tuple box w = (w, Ok rect).

(** The intermediate images of [detect_colour], by the names the source
    gives their dumps. *)
Section Stages.
Context `{cv : Cv2}.
Variables (frame : Frame) (min_hsv max_hsv : pixel).

Definition hsv_frame : Frame := pixels_BGR2HSV frame.
Definition green_mask : Mask := inRange hsv_frame min_hsv max_hsv.
Definition green_mask_dilated : Mask := dilate green_mask (np_ones 5 5).
Definition img_masked : Frame := bitwise_and frame frame green_mask_dilated.
Definition contours_found : list Contour :=
  findContours (pixels_BGR2GRAY img_masked).

Definition dump_files : list (string * Picture) :=
  [ ("hsv_frame.jpg", Colour3 hsv_frame);
    ("green_mask.jpg", Grey1 green_mask);
    ("green_mask_dilated.jpg", Grey1 green_mask_dilated);
    ("img_masked.jpg", Colour3 img_masked) ].

End Stages.

(** The state after the dumps, and after the log lines of a result. *)
Definition after_dump (dump : bool) (files : list (string * Picture))
           (w : World) : World :=
  if dump
  then {| log := log w; disk := disk w ++ files; clock := clock w |}
  else w.

Definition after_log (r : result (list Rect)) (w : World) : World :=
  match r with
  | Ok boxes => fst (log_detected boxes w)
  | Raise _ => w
  end.

(** A computation that neither reads nor changes the state. *)
Definition stateless {A} (m : M A) : Prop :=
  exists r : result A, forall w, m w = (w, r).

(** A point a contour can hold: the coordinates of a pixel of an image,
    whose sides are 32-bit ints. *)
Definition in_image_range (p : Point) : Prop :=
  0 <= fst p < 2 ^ 31 - 1 /\ 0 <= snd p < 2 ^ 31 - 1.

(** A contour as contour tracing returns it: at least one point, all of
    them pixel coordinates. *)
Definition traced (c : Contour) : Prop := c <> [] /\ Forall in_image_range c.

(** The contours whose area passes the test. *)
Definition area_ok `{Cv2} (min_contour max_contour : Z) (c : Contour) : bool :=
  area_test (contourArea c) min_contour max_contour.

(** A mask with no pixel set, a frame that is black all over, and a frame
    none of whose pixels lies within the bounds. *)
Definition blank (m : Mask) : Prop := Forall (Forall (fun v => v = 0)) m.
Definition black (f : Frame) : Prop := Forall (Forall (fun p => p = (0, 0, 0))) f.
Definition outside_range (f : Frame) (lo hi : pixel) : Prop :=
  Forall (Forall (fun p => in_range p lo hi = false)) f.

(** ** Inputs for the examples *)

Module Inputs.
Import Reference.

(** A bright green square of 12 by 12 pixels at (10, 10) in a black frame
    of 30 by 30; a red square of 2 by 2 in a frame of 6 by 6. *)
Definition green_square : Frame := filled_rect 30 30 (10, 10, 12, 12) (0, 255, 0).
Definition red_square : Frame := filled_rect 6 6 (2, 2, 2, 2) (0, 0, 255).

(** 2.5 and -3.75 *)
Definition f2_5 : F64.float := F64.div (F64.of_Z 5) (F64.of_Z 2).
Definition fm3_75 : F64.float := F64.div (F64.of_Z (-15)) (F64.of_Z 4).

Definition float_boxes : list NumBox :=
  [ (PyFloat f2_5, PyInt 1, PyFloat fm3_75, PyInt 4);
    (PyInt 0, PyInt 0, PyInt 2, PyInt 2) ].

End Inputs.

(** ** Further vocabulary *)

(** The height of a rectangle ( x, y, width, height ). *)
Definition rect_height (r : Rect) : Z := snd r.

(** A contour at which the scan of [detect_colour] stops: its area passes
    the test and its bounding rectangle has no height. *)
Definition stops_scan `{Cv2} (min_contour max_contour : Z) (c : Contour) : bool :=
  area_ok min_contour max_contour c
  && (rect_height (pointSetBoundingRect c) =? 0).

(** The exception [int()] raises on a number, if any. *)
Definition num_error (x : pynum) : option exn :=
  match x with
  | PyFloat S754_nan => Some ValueError
  | PyFloat (S754_infinity _) => Some OverflowError
  | _ => None
  end.

(** The exception a box makes [draw_annotations] raise, if any: that of
    the first coordinate, in the order of the tuple, that [int()] rejects;
    failing that, the error of [cv2.rectangle] when one of the four ints
    is no 32-bit int. *)
Definition box_error (box : NumBox) : option exn :=
  let '(a, b, c, d) := box in
  match num_error a, num_error b, num_error c, num_error d with
  | Some e, _, _, _ => Some e
  | None, Some e, _, _ => Some e
  | None, None, Some e, _ => Some e
  | None, None, None, Some e => Some e
  | None, None, None, None =>
      if int32b (toward_zero a) && int32b (toward_zero b)
         && int32b (toward_zero c) && int32b (toward_zero d)
      then None else Some BadArgument
  end.

(** Whether the aspect test keeps the box of a contour: the quotient of its
    width by its height is at least 0.8 or at most 1.2. *)
Definition aspect_keeps (c : Contour) : bool :=
  let '(_, _, bw, bh) := pointSetBoundingRect c in
  match py_truediv bw bh with
  | Ok q => F64.leb F64.f0_8 q || F64.leb q F64.f1_2
  | Raise _ => false
  end.

Module MoreInputs.
Import Reference Inputs.

(** The second box has an infinite width. *)
Definition boxes_with_infinity : list NumBox :=
  [ (PyFloat f2_5, PyInt 1, PyFloat fm3_75, PyInt 4);
    (PyInt 0, PyInt 0, PyFloat (S754_infinity false), PyFloat S754_nan);
    (PyInt 0, PyInt 0, PyInt 2, PyInt 2) ].

(** The second box is 2^31 wide: an int, but no 32-bit int. *)
Definition boxes_too_wide : list NumBox :=
  [ (PyInt 0, PyInt 0, PyInt 2, PyInt 2);
    (PyInt 0, PyInt 0, PyInt 2147483648, PyInt 2);
    (PyFloat S754_nan, PyInt 0, PyInt 2, PyInt 2) ].

(** A filled white octagon in a black frame of 40 by 40: the pixels within
    7 of (20, 20) along both axes and within 10 along the diagonals, 185
    pixels in all. It is a blob round enough for the detector: its contour
    has an area of about 200 and a circularity of about 0.947. With it,
    the keypoint of a blob at its centre. *)
Definition white_octagon : Frame :=
  map (fun '(row, ps) =>
         map (fun '(col, p) =>
                if (Z.max (Z.abs (col - 20)) (Z.abs (row - 20)) <=? 7)
                   && (Z.abs (col - 20) + Z.abs (row - 20) <=? 10)
                then (255, 255, 255) else p)
             (enumerate ps))
      (enumerate (repeat (repeat (0, 0, 0) 40) 40)).

Definition octagon_keypoint : KeyPoint :=
  {| kp_x := F64.of_Z 20; kp_y := F64.of_Z 20; kp_size := F64.of_Z 15 |}.

End MoreInputs.

(** * Properties *)

(** ** Lists and loops *)

Lemma length_enumerate_from {A} (xs : list A) (s : Z) :
  List.length (enumerate_from s xs) = List.length xs.
Proof.
  revert s; induction xs as [|x xs IH]; intros s; simpl; [reflexivity|].
  now rewrite IH.
Qed.

Lemma nth_error_enumerate_from {A} (xs : list A) (s : Z) (i : nat) :
  nth_error (enumerate_from s xs) i
  = option_map (fun x => (s + Z.of_nat i, x)) (nth_error xs i).
Proof.
  revert s i; induction xs as [|x xs IH]; intros s [|i]; simpl; try reflexivity.
  - now rewrite Z.add_0_r.
  - rewrite IH. destruct (nth_error xs i); simpl; [|reflexivity].
    do 2 f_equal. lia.
Qed.

Lemma map_snd_enumerate_from {A} (xs : list A) (s : Z) :
  map snd (enumerate_from s xs) = xs.
Proof.
  revert s; induction xs as [|x xs IH]; intros s; simpl; [reflexivity|].
  now rewrite IH.
Qed.

(** A loop whose body only logs one line per element appends those lines,
    in order, and nothing else happens. *)
Lemma for_each_logging {A} (xs : list A) (body : A -> M unit)
      (line : A -> string) (w : World) :
  (forall x, body x = logging_info (line x)) ->
  for_each xs body w
  = ({| log := log w ++ map line xs; disk := disk w; clock := clock w |},
     Ok tt).
Proof.
  intros Hbody. revert w; induction xs as [|x xs IH]; intros w; simpl.
  - rewrite app_nil_r. now destruct w.
  - unfold bind. rewrite Hbody. unfold logging_info at 1.
    rewrite IH. simpl. now rewrite <- app_assoc.
Qed.

(** ** [log_detected] *)

Section LogDetected.

Lemma log_detected_run (boxes : list Box) (w : World) :
  log_detected boxes w
  = ({| log := log w ++ map box_line (enumerate boxes) ++ [summary_line boxes];
        disk := disk w; clock := clock w |}, Ok tt).
Proof.
  unfold log_detected, bind.
  rewrite for_each_logging with (line := box_line) by (now intros [i box]).
  unfold logging_info; simpl. now rewrite <- app_assoc.
Qed.

(** C2: [log_detected] returns nothing and touches only the log, to which
    it appends one line per box, in the order of the input, each made of
    the 1-based index and the box tuple, and then the one summary line with
    the number of boxes; on the empty list that is the single line
    ["Found 0 blobs in frame."]. *)
Theorem log_detected_emits (boxes : list Box) (w : World) :
  exists lines : list string,
    log_detected boxes w
    = ({| log := log w ++ lines ++ ["Found " ++ str (len boxes) ++ " blobs in frame."];
          disk := disk w; clock := clock w |}, Ok tt)
    /\ List.length lines = List.length boxes
    /\ (forall (i : nat) (box : Box),
           nth_error boxes i = Some box ->
           nth_error lines i
           = Some (str (Z.of_nat i + 1) ++ ", " ++ repr_box box))
    /\ (boxes = [] -> lines = [])
    /\ (boxes = [(1, 2, 3, 4)] -> lines = ["1, (1, 2, 3, 4)"]).
Proof.
  exists (map box_line (enumerate boxes)).
  split; [apply log_detected_run|].
  split; [unfold enumerate; now rewrite length_map, length_enumerate_from|].
  split; [|split; intros ->; reflexivity].
  intros i box Hi. unfold enumerate.
  rewrite nth_error_map, nth_error_enumerate_from, Hi. reflexivity.
Qed.

End LogDetected.

(** ** [draw_bbox] and [draw_annotations] *)

Section Annotations.
Context `{cv : Cv2}.

Lemma int32b_spec (z : Z) : int32b z = true <-> int32 z.
Proof. unfold int32b, int32. rewrite andb_true_iff, Z.leb_le, Z.ltb_lt. tauto. Qed.

Lemma rectangle_accepts (frame : Frame) (rect : Rect) (color : Colour)
      (thickness : Z) :
  rect_int32 rect ->
  rectangle frame rect color thickness
  = Ok (draw_rectangle frame rect color thickness).
Proof.
  destruct rect as [[[x y] w] h]. intros (Hx & Hy & Hw & Hh).
  unfold rectangle.
  now rewrite (proj2 (int32b_spec x) Hx), (proj2 (int32b_spec y) Hy),
              (proj2 (int32b_spec w) Hw), (proj2 (int32b_spec h) Hh).
Qed.

Lemma rectangle_rejects (frame : Frame) (rect : Rect) (color : Colour)
      (thickness : Z) :
  ~ rect_int32 rect ->
  rectangle frame rect color thickness = Raise BadArgument.
Proof.
  destruct rect as [[[x y] w] h]. intros Hn. unfold rectangle.
  destruct (int32b x && int32b y && int32b w && int32b h) eqn:Hb;
    [|reflexivity].
  exfalso. apply Hn. rewrite !andb_true_iff, !int32b_spec in Hb.
  unfold rect_int32. tauto.
Qed.

Lemma draw_bbox_calls (frame : Frame) (player : Z) (rect : Rect) (w : World) :
  rect_int32 rect ->
  draw_bbox frame player rect w
  = (w, Ok (perform_all frame (player_calls player rect))).
Proof.
  intros Hr. unfold draw_bbox. destruct rect as [[[x y] bw] bh].
  unfold bind, lift. now rewrite (rectangle_accepts _ _ _ _ Hr).
Qed.

Lemma draw_bbox_rejects (frame : Frame) (player : Z) (rect : Rect) (w : World) :
  ~ rect_int32 rect ->
  draw_bbox frame player rect w = (w, Raise BadArgument).
Proof.
  intros Hr. unfold draw_bbox. destruct rect as [[[x y] bw] bh].
  unfold bind, lift. now rewrite (rectangle_rejects _ _ _ _ Hr).
Qed.

Lemma perform_all_app (frame : Frame) (c1 c2 : list draw_call) :
  perform_all frame (c1 ++ c2) = perform_all (perform_all frame c1) c2.
Proof. apply fold_left_app. Qed.

Lemma annotate_loop (boxes : list NumBox) (rects : list Rect) :
  Forall2 converts boxes rects ->
  Forall rect_int32 rects ->
  forall (n : Z) (frame : Frame) (w : World),
    for_fold (enumerate_from n boxes) frame
             (fun frame '(i, box) =>
                rect <- int_tuple box ;; draw_bbox frame (i + 1) rect) w
    = (w, Ok (perform_all frame (annotation_calls (n + 1) rects))).
Proof.
  induction 1 as [|box rect boxes rects Hc _ IH]; intros Hr n frame w.
  - reflexivity.
  - inversion Hr as [|r rs Hr1 Hrs]; subst.
    simpl. unfold bind at 1 2. rewrite Hc.
    rewrite (draw_bbox_calls _ _ _ _ Hr1).
    rewrite (IH Hrs), perform_all_app. reflexivity.
Qed.

Lemma draw_annotations_run (frame : Frame) (boxes : list NumBox)
      (rects : list Rect) (w : World) :
  Forall2 converts boxes rects ->
  Forall rect_int32 rects ->
  draw_annotations frame boxes w
  = (w, Ok (perform_all frame
              (timestamp_call (clock w) (shape0 frame)
               :: annotation_calls 1 rects))).
Proof.
  intros Hc Hr. unfold draw_annotations, bind, datetime_now, enumerate.
  now rewrite (annotate_loop _ _ Hc Hr).
Qed.

Lemma converts_of_ints (box : Rect) : converts (of_ints box) box.
Proof. destruct box as [[[x y] w] h]. intros w0. reflexivity. Qed.

Lemma converts_map_of_ints (boxes : list Rect) :
  Forall2 converts (map of_ints boxes) boxes.
Proof.
  induction boxes; simpl; constructor; auto using converts_of_ints.
Qed.

End Annotations.

Lemma length_annotation_calls (boxes : list Rect) (n : Z) :
  List.length (annotation_calls n boxes) = (2 * List.length boxes)%nat.
Proof.
  revert n; induction boxes as [|[[[x y] w] h] rest IH]; intros n; simpl.
  - reflexivity.
  - rewrite IH. lia.
Qed.

Lemma nth_annotation_calls (boxes : list Rect) (n : Z) (i : nat) (box : Rect) :
  nth_error boxes i = Some box ->
  nth_error (annotation_calls n boxes) (2 * i)
  = nth_error (player_calls (n + Z.of_nat i) box) 0
  /\ nth_error (annotation_calls n boxes) (2 * i + 1)
     = nth_error (player_calls (n + Z.of_nat i) box) 1.
Proof.
  revert n i; induction boxes as [|b rest IH]; intros n [|i] Hi;
    simpl in Hi; try discriminate.
  - injection Hi as ->. rewrite Z.add_0_r.
    destruct box as [[[x y] w] h]. split; reflexivity.
  - destruct (IH (n + 1) i Hi) as [H0 H1].
    replace (n + Z.of_nat (S i)) with (n + 1 + Z.of_nat i) by lia.
    rewrite <- H0, <- H1.
    replace (2 * S i)%nat with (S (S (2 * i))) by lia.
    destruct b as [[[x y] w] h]. split; reflexivity.
Qed.

Lemma text_labels_annotation_calls (boxes : list Rect) (n : nat) :
  text_labels (annotation_calls (Z.of_nat n) boxes)
  = map (fun k => "Player" ++ str (Z.of_nat k)) (seq n (List.length boxes)).
Proof.
  revert n; induction boxes as [|[[[x y] w] h] rest IH]; intros n; simpl.
  - reflexivity.
  - f_equal. replace (Z.of_nat n + 1) with (Z.of_nat (S n)) by lia. apply IH.
Qed.

Lemma text_labels_players (boxes : list Rect) :
  text_labels (annotation_calls 1 boxes) = player_labels (List.length boxes).
Proof. exact (text_labels_annotation_calls boxes 1). Qed.

(** C3: on N boxes of 32-bit ints (what a rectangle of OpenCV holds, and
    what [cv2.rectangle] accepts), [draw_annotations] performs, after the
    timestamp, two calls per box in input order: for the box at 0-based
    position [i], a green (0, 255, 0) rectangle of thickness 2 at
    (x, y, w, h), then the green text ["Player"(i+1)] at (x, y). The labels
    are exactly "Player1" .. "PlayerN", and any other list of the same
    length gets the same labels: the number is the position in the list,
    computed afresh in every call. *)
Theorem draw_annotations_players `{cv : Cv2}
        (frame : Frame) (boxes : list Rect) (w : World) :
  Forall rect_int32 boxes ->
  let calls := annotation_calls 1 boxes in
  draw_annotations frame (map of_ints boxes) w
  = (w, Ok (perform_all frame
              (timestamp_call (clock w) (shape0 frame) :: calls)))
  /\ List.length calls = (2 * List.length boxes)%nat
  /\ (forall (i : nat) (x y bw bh : Z),
         nth_error boxes i = Some (x, y, bw, bh) ->
         nth_error calls (2 * i) = Some (Rectangle (x, y, bw, bh) (0, 255, 0) 2)
         /\ nth_error calls (2 * i + 1)
            = Some (Text ("Player" ++ str (Z.of_nat i + 1)) (x, y)
                         FONT_HERSHEY_SIMPLEX F64.f0_5 (0, 255, 0) 1))
  /\ text_labels calls = player_labels (List.length boxes)
  /\ (forall boxes' : list Rect,
         List.length boxes' = List.length boxes ->
         text_labels (annotation_calls 1 boxes') = text_labels calls).
Proof.
  intros Hr calls. subst calls.
  split; [apply draw_annotations_run; [apply converts_map_of_ints|exact Hr]|].
  split; [apply length_annotation_calls|].
  split.
  - intros i x y bw bh Hi.
    destruct (nth_annotation_calls boxes 1 i _ Hi) as [H0 H1].
    rewrite H0, H1. replace (1 + Z.of_nat i) with (Z.of_nat i + 1) by lia.
    split; reflexivity.
  - split; [apply text_labels_players|].
    intros boxes' Hlen. now rewrite !text_labels_players, Hlen.
Qed.

(** ** [int()] truncates toward zero *)

Lemma trunc_to_Q (f : F64.float) :
  F64.is_finite f = true ->
  exists q, F64.to_Q f = Some q /\ F64.trunc f = Some (Qtrunc q).
Proof.
  destruct f as [s|s| |s m e]; simpl; try discriminate; intros _.
  - exists (0 # 1)%Q. split; reflexivity.
  - destruct e as [|p|p].
    + eexists; split; [reflexivity|]. unfold Qtrunc; simpl Qnum; simpl Qden.
      rewrite Z.quot_1_r. rewrite Z.shiftl_0_r. now destruct s.
    + eexists; split; [reflexivity|]. unfold Qtrunc; simpl Qnum; simpl Qden.
      rewrite Z.quot_1_r, Z.shiftl_mul_pow2 by lia.
      destruct s; [|reflexivity].
      now rewrite <- Z.mul_opp_l.
    + eexists; split; [reflexivity|]. unfold Qtrunc; simpl Qnum; simpl Qden.
      change (Z.shiftl (Z.pos m) (Z.neg p)) with (Z.shiftr (Z.pos m) (Z.pos p)).
      rewrite Z.shiftr_div_pow2 by lia. rewrite Pos2Z.inj_pow.
      assert (Hd : 0 < Z.pos 2 ^ Z.pos p) by (apply Z.pow_pos_nonneg; lia).
      destruct s.
      * change (Z.neg m) with (- Z.pos m).
        rewrite Z.quot_opp_l by lia. rewrite Z.quot_div_nonneg by lia.
        reflexivity.
      * rewrite Z.quot_div_nonneg by lia. reflexivity.
Qed.

Lemma py_int_toward_zero (x : pynum) :
  num_finite x -> py_int x = Ok (toward_zero x).
Proof.
  destruct x as [z|f]; simpl.
  - intros _. unfold toward_zero, Qtrunc; simpl. now rewrite Z.quot_1_r.
  - intros Hf. destruct (trunc_to_Q f Hf) as (q & Hq & Ht).
    unfold toward_zero; simpl. now rewrite Ht, Hq.
Qed.

Lemma toward_zero_int (z : Z) : toward_zero (PyInt z) = z.
Proof. unfold toward_zero, Qtrunc; simpl. apply Z.quot_1_r. Qed.

Lemma converts_truncated `{cv : Cv2} (box : NumBox) :
  box_finite box -> converts box (truncated box).
Proof.
  destruct box as [[[a b] c] d]. intros (Ha & Hb & Hc & Hd) w.
  unfold int_tuple, bind, lift.
  rewrite (py_int_toward_zero _ Ha), (py_int_toward_zero _ Hb),
          (py_int_toward_zero _ Hc), (py_int_toward_zero _ Hd).
  reflexivity.
Qed.

Lemma converts_map_truncated `{cv : Cv2} (boxes : list NumBox) :
  Forall box_finite boxes -> Forall2 converts boxes (map truncated boxes).
Proof.
  induction 1; simpl; constructor; auto using converts_truncated.
Qed.

Lemma drawable_finite (boxes : list NumBox) :
  Forall box_drawable boxes -> Forall box_finite boxes.
Proof. apply Forall_impl. now intros box [H _]. Qed.

Lemma drawable_int32 (boxes : list NumBox) :
  Forall box_drawable boxes -> Forall rect_int32 (map truncated boxes).
Proof.
  intros H. apply Forall_map. eapply Forall_impl; [|exact H].
  now intros box [_ H32].
Qed.

(** The run of [draw_annotations] on boxes it can draw. *)
Lemma draw_annotations_drawable `{cv : Cv2}
      (frame : Frame) (boxes : list NumBox) (w : World) :
  Forall box_drawable boxes ->
  draw_annotations frame boxes w
  = (w, Ok (perform_all frame
              (timestamp_call (clock w) (shape0 frame)
               :: annotation_calls 1 (map truncated boxes)))).
Proof.
  intros H. apply draw_annotations_run.
  - apply converts_map_truncated, drawable_finite, H.
  - apply drawable_int32, H.
Qed.

(** C10: the coordinates of a box need not be ints. Every coordinate goes
    through [int()], which leaves an int as it is and truncates a finite
    float toward zero; when the ints so obtained are 32-bit ints, which
    [cv2.rectangle] asks for, the rectangle and the label of each box are
    drawn at the truncated coordinates. *)
Theorem draw_annotations_truncates `{cv : Cv2}
        (frame : Frame) (boxes : list NumBox) (w : World) :
  Forall box_drawable boxes ->
  draw_annotations frame boxes w
  = (w, Ok (perform_all frame
              (timestamp_call (clock w) (shape0 frame)
               :: annotation_calls 1 (map truncated boxes))))
  /\ (forall (i : nat) (a b c d : pynum),
         nth_error boxes i = Some (a, b, c, d) ->
         py_int a = Ok (toward_zero a) /\ py_int b = Ok (toward_zero b)
         /\ py_int c = Ok (toward_zero c) /\ py_int d = Ok (toward_zero d)
         /\ nth_error (annotation_calls 1 (map truncated boxes)) (2 * i)
            = Some (Rectangle (toward_zero a, toward_zero b,
                               toward_zero c, toward_zero d) green 2)
         /\ nth_error (annotation_calls 1 (map truncated boxes)) (2 * i + 1)
            = Some (Text ("Player" ++ str (Z.of_nat i + 1))
                         (toward_zero a, toward_zero b)
                         FONT_HERSHEY_SIMPLEX F64.f0_5 green 1)).
Proof.
  intros Hdraw. pose proof (drawable_finite _ Hdraw) as Hfin.
  split; [apply draw_annotations_drawable, Hdraw|].
  intros i a b c d Hi.
  assert (Hb : box_finite (a, b, c, d)).
  { rewrite Forall_forall in Hfin. apply Hfin. eapply nth_error_In, Hi. }
  destruct Hb as (Ha & Hb & Hc & Hd).
  repeat (split; [now apply py_int_toward_zero|]).
  assert (Ht : nth_error (map truncated boxes) i = Some (truncated (a, b, c, d)))
    by (now rewrite nth_error_map, Hi).
  destruct (nth_annotation_calls _ 1 i _ Ht) as [H0 H1].
  rewrite H0, H1. replace (1 + Z.of_nat i) with (Z.of_nat i + 1) by lia.
  split; reflexivity.
Qed.

(** ** The annotated frame keeps its shape *)

Section Shape.
Context `{cv : Cv2}.

(** The drawing primitives paint into the image they are given: they do
    not resize it. *)
Hypothesis rectangle_shape :
  forall img rec color thickness,
    shape (draw_rectangle img rec color thickness) = shape img.
Hypothesis putText_shape :
  forall img text org font scale color thickness,
    shape (putText img text org font scale color thickness) = shape img.

Lemma perform_shape (frame : Frame) (c : draw_call) :
  shape (perform frame c) = shape frame.
Proof. destruct c; simpl; auto. Qed.

Lemma perform_all_shape (calls : list draw_call) (frame : Frame) :
  shape (perform_all frame calls) = shape frame.
Proof.
  revert frame; induction calls as [|c calls IH]; intros frame.
  - reflexivity.
  - change (perform_all frame (c :: calls))
      with (perform_all (perform frame c) calls).
    now rewrite IH, perform_shape.
Qed.

(** C4: for every frame and every list of boxes that can be drawn (the
    coordinates are accepted by [int()] and come out as 32-bit ints), the
    empty list included, [draw_annotations] returns a frame: the input
    frame with the timestamp text put at (10, H - 10) and then the boxes'
    annotations drawn over it; it has the shape of the input frame, a box
    of ints is drawn at exactly its own coordinates, and nothing but the
    frame is touched. *)
Theorem draw_annotations_shape
        (frame : Frame) (boxes : list NumBox) (w : World) :
  Forall box_drawable boxes ->
  exists (frame' : Frame) (rects : list Rect),
    draw_annotations frame boxes w = (w, Ok frame')
    /\ frame'
       = perform_all
           (putText frame (strftime (clock w)) (10, shape0 frame - 10)
                    FONT_HERSHEY_SIMPLEX F64.f0_5 (255, 255, 255) 1)
           (annotation_calls 1 rects)
    /\ shape frame' = shape frame
    /\ List.length rects = List.length boxes
    /\ (forall (i : nat) (x y bw bh : Z),
           nth_error boxes i = Some (PyInt x, PyInt y, PyInt bw, PyInt bh) ->
           nth_error rects i = Some (x, y, bw, bh))
    /\ (boxes = [] ->
        frame' = putText frame (strftime (clock w)) (10, shape0 frame - 10)
                         FONT_HERSHEY_SIMPLEX F64.f0_5 (255, 255, 255) 1).
Proof.
  intros Hdraw.
  eexists. exists (map truncated boxes).
  split; [apply draw_annotations_drawable, Hdraw|].
  split; [reflexivity|].
  split; [apply perform_all_shape|].
  split; [apply length_map|].
  split.
  - intros i x y bw bh Hi. rewrite nth_error_map, Hi. simpl.
    now rewrite !toward_zero_int.
  - intros ->. reflexivity.
Qed.

End Shape.

(** ** Facts about binary64 *)

Module F64Facts.
Import F64.

(** Every float but NaN is at least 0.8 or at most 1.2. *)
Lemma ge_0_8_or_le_1_2 (q : float) :
  is_nan q = false -> leb f0_8 q || leb q f1_2 = true.
Proof.
  destruct q as [s|s| |s m e]; simpl; try discriminate; intros _.
  - now destruct s.
  - now destruct s.
  - destruct s; [reflexivity|].
    unfold leb, SFleb, f0_8, f1_2, SFcompare.
    destruct (Z.compare_spec e (-52)) as [->| |]; try reflexivity.
    + rewrite orb_true_r. reflexivity.
    + replace (-53 ?= e) with Lt by (symmetry; apply Z.compare_lt_iff; lia).
      reflexivity.
Qed.

(** A NaN is neither. *)
Lemma nan_fails_both : leb f0_8 S754_nan || leb S754_nan f1_2 = false.
Proof. reflexivity. Qed.

(** Shifting right keeps a mantissa non-negative. *)
Lemma shr_1_nonneg (mrs : shr_record) :
  0 <= shr_m mrs -> 0 <= shr_m (shr_1 mrs).
Proof.
  destruct mrs as [m r s]; simpl.
  destruct m as [|[p|p|]|p]; simpl; lia.
Qed.

Lemma iter_pos_shr_1_nonneg (n : positive) (mrs : shr_record) :
  0 <= shr_m mrs -> 0 <= shr_m (SpecFloat.iter_pos shr_1 n mrs).
Proof.
  revert mrs; induction n as [n IH|n IH|]; intros mrs H; simpl.
  - apply IH, IH, shr_1_nonneg, H.
  - apply IH, IH, H.
  - apply shr_1_nonneg, H.
Qed.

Lemma shr_m_record_of_loc (m : Z) (l : location) :
  shr_m (shr_record_of_loc m l) = m.
Proof. destruct l as [|[]]; reflexivity. Qed.

Lemma shr_fexp_nonneg (m e : Z) (l : location) :
  0 <= m -> 0 <= shr_m (fst (shr_fexp prec emax m e l)).
Proof.
  intros H. unfold shr_fexp, shr.
  destruct (fexp prec emax (Zdigits2 m + e) - e); simpl;
    try (rewrite shr_m_record_of_loc; exact H).
  apply iter_pos_shr_1_nonneg. now rewrite shr_m_record_of_loc.
Qed.

Lemma round_nearest_even_nonneg (m : Z) (l : location) :
  0 <= m -> 0 <= round_nearest_even m l.
Proof.
  intros H. destruct l as [|[]]; simpl; try lia.
  destruct (Z.even m); lia.
Qed.

(** Rounding a non-negative mantissa never yields a NaN. *)
Lemma binary_round_aux_not_nan (s : bool) (m e : Z) (l : location) :
  0 <= m -> is_nan (binary_round_aux prec emax s m e l) = false.
Proof.
  intros H. unfold binary_round_aux.
  pose proof (shr_fexp_nonneg m e l H) as H1.
  destruct (shr_fexp prec emax m e l) as [mrs' e']. simpl in H1.
  pose proof (round_nearest_even_nonneg _ (loc_of_shr_record mrs') H1) as H2.
  pose proof (shr_fexp_nonneg _ e' loc_Exact H2) as H3.
  destruct (shr_fexp prec emax _ e' loc_Exact) as [mrs'' e'']. simpl in H3.
  destruct (shr_m mrs'') as [|p|p]; try reflexivity.
  - now destruct (e'' <=? emax - prec).
  - lia.
Qed.

Lemma of_Z_not_nan (z : Z) : is_nan (of_Z z) = false.
Proof.
  unfold of_Z, binary_normalize, binary_round.
  destruct z as [|p|p]; try reflexivity.
  - destruct (shl_align _ _ _) as [mz ez].
    apply binary_round_aux_not_nan; lia.
  - destruct (shl_align _ _ _) as [mz ez].
    apply binary_round_aux_not_nan; lia.
Qed.

(** The quotient of anything but a NaN by a finite non-zero float is not a
    NaN. *)
Lemma div_by_finite_not_nan (x : float) (s : bool) (m : positive) (e : Z) :
  is_nan x = false -> is_nan (div x (S754_finite s m e)) = false.
Proof.
  destruct x as [sx|sx| |sx mx ex]; simpl; try discriminate; try reflexivity.
  intros _. unfold SFdiv_core_binary.
  set (m' := match _ - _ - _ with Z0 => _ | Z.pos _ => _ | Z.neg _ => _ end).
  assert (Hm : 0 <= m').
  { subst m'. destruct (_ - _ - _) as [|p|p]; try lia.
    apply Z.shiftl_nonneg. lia. }
  pose proof (Z.div_pos m' (Z.pos m) Hm ltac:(lia)) as Hq.
  unfold Z.div in Hq.
  destruct (Z.div_eucl m' (Z.pos m)) as [q r]. simpl in Hq.
  now apply binary_round_aux_not_nan.
Qed.

Lemma digits2_pos_size (p : positive) : digits2_pos p = Pos.size p.
Proof. induction p; simpl; congruence. Qed.

Lemma digits2_pos_bound (p : positive) :
  Z.pos p < 2 ^ 53 -> Z.pos (digits2_pos p) <= 53.
Proof.
  intros Hp. rewrite digits2_pos_size.
  destruct (Z_le_gt_dec (Z.pos (Pos.size p)) 53) as [|Hgt]; [assumption|].
  exfalso.
  pose proof (Pos.size_le p) as Hle.
  apply Pos2Z.pos_le_pos in Hle. rewrite Pos2Z.inj_pow in Hle.
  assert (H54 : 2 ^ 54 <= Z.pos 2 ^ Z.pos (Pos.size p))
    by (apply Z.pow_le_mono_r; lia).
  rewrite (Pos2Z.inj_xO p) in Hle. lia.
Qed.

Lemma digits2_pos_iter_xO (p k : positive) :
  digits2_pos (Pos.iter xO p k) = (digits2_pos p + k)%positive.
Proof.
  induction k as [|k IH] using Pos.peano_ind.
  - simpl. now rewrite Pos.add_1_r.
  - rewrite Pos.iter_succ. simpl. rewrite IH. now rewrite Pos.add_succ_r.
Qed.

(** A mantissa of 53 digits with an exponent in range is left as it is. *)
Lemma binary_round_aux_canonical (s : bool) (m : positive) (e : Z) :
  Z.pos (digits2_pos m) = 53 -> -1074 <= e <= 971 ->
  binary_round_aux prec emax s (Z.pos m) e loc_Exact = S754_finite s m e.
Proof.
  intros Hd He.
  assert (Hf : fexp prec emax (Zdigits2 (Z.pos m) + e) - e = 0).
  { simpl Zdigits2. rewrite Hd. unfold fexp, SpecFloat.emin, prec, emax. lia. }
  unfold binary_round_aux, shr_fexp. rewrite Hf.
  cbn [shr shr_record_of_loc shr_m loc_of_shr_record round_nearest_even].
  rewrite Hf.
  cbn [shr shr_record_of_loc shr_m loc_of_shr_record round_nearest_even].
  replace (e <=? emax - prec) with true; [reflexivity|].
  symmetry. apply Z.leb_le. unfold emax, prec. lia.
Qed.

(** A positive int below 2^53 converts to a finite non-zero float. *)
Lemma of_Z_finite (z : Z) :
  0 < z < 2 ^ 53 -> exists m e, of_Z z = S754_finite false m e.
Proof.
  intros [Hpos Hlt]. destruct z as [|p|p]; try lia.
  pose proof (digits2_pos_bound p Hlt) as Hd.
  unfold of_Z, binary_normalize, binary_round, shl_align.
  assert (Hf : fexp prec emax (Z.pos (digits2_pos p) + 0)
               = Z.pos (digits2_pos p) - 53).
  { unfold fexp, SpecFloat.emin, prec, emax. lia. }
  rewrite Hf.
  destruct (Z.pos (digits2_pos p) - 53 - 0) as [|k|k] eqn:Hk; try lia.
  - do 2 eexists. apply binary_round_aux_canonical; lia.
  - do 2 eexists. apply binary_round_aux_canonical; [|lia].
    rewrite digits2_pos_iter_xO, Pos2Z.inj_add. lia.
Qed.

(** The quotient of two ints of a rectangle is never a NaN. *)
Lemma div_of_Z_not_nan (a b : Z) :
  0 < b < 2 ^ 53 -> is_nan (div (of_Z a) (of_Z b)) = false.
Proof.
  intros Hb. destruct (of_Z_finite b Hb) as (m & e & ->).
  apply div_by_finite_not_nan, of_Z_not_nan.
Qed.

End F64Facts.

(** ** The shapes of the stages of [detect_colour] *)

Lemma is_empty_dims {A} (img : image A) :
  is_empty img
  = (Z.of_nat (List.length (dims img)) =? 0)
    || (Z.of_nat (hd 0%nat (dims img)) =? 0).
Proof.
  unfold is_empty, shape0, shape1, len, dims. rewrite length_map.
  now destruct img.
Qed.

Lemma is_empty_same_dims {A B} (a : image A) (b : image B) :
  dims a = dims b -> is_empty a = is_empty b.
Proof. intros H. now rewrite !is_empty_dims, H. Qed.

Lemma dims_map_map {A B} (f : A -> B) (img : image A) :
  dims (map (map f) img) = dims img.
Proof.
  unfold dims. rewrite map_map. apply map_ext. intros row. apply length_map.
Qed.

Lemma dims_map_enumerate {A B} (f : Z * list A -> list B) (img : image A) :
  (forall y row, List.length (f (y, row)) = List.length row) ->
  dims (map f (enumerate img)) = dims img.
Proof.
  intros Hf. unfold dims, enumerate. rewrite map_map.
  rewrite <- (map_snd_enumerate_from img 0) at 2. rewrite map_map.
  apply map_ext. intros [y row]. apply Hf.
Qed.

Lemma dims_dilate (m kernel : Mask) : dims (dilate m kernel) = dims m.
Proof.
  unfold dilate.
  apply (dims_map_enumerate
           (fun '(y, row) =>
              map (fun '(x, _) =>
                     fold_left
                       (fun acc '(dy, dx) =>
                          match at_ m (y + dy) (x + dx) with
                          | Some v => Z.max acc v
                          | None => acc
                          end)
                       (kernel_offsets kernel) 0)
                  (enumerate row))).
  intros y row. unfold enumerate.
  now rewrite length_map, length_enumerate_from.
Qed.

Lemma dims_bitwise_and (src : Frame) (mask : Mask) :
  dims mask = dims src -> dims (bitwise_and src src mask) = dims src.
Proof.
  unfold bitwise_and, dims.
  revert mask; induction src as [|row src IH]; intros [|mrow mask] H;
    simpl in *; try discriminate; [reflexivity|].
  injection H as Hrow Hrest. f_equal; [|now apply IH].
  rewrite length_map, !length_combine, Hrow, !Nat.min_id. reflexivity.
Qed.

Lemma dims_img_masked `{cv : Cv2} (frame : Frame) (min_hsv max_hsv : pixel) :
  dims (img_masked frame min_hsv max_hsv) = dims frame.
Proof.
  unfold img_masked. apply dims_bitwise_and.
  unfold green_mask_dilated, green_mask, hsv_frame, inRange, pixels_BGR2HSV.
  now rewrite dims_dilate, !dims_map_map.
Qed.

Lemma img_masked_not_empty `{cv : Cv2} (frame : Frame)
      (min_hsv max_hsv : pixel) :
  is_empty frame = false -> is_empty (img_masked frame min_hsv max_hsv) = false.
Proof.
  intros H. now rewrite (is_empty_same_dims _ frame (dims_img_masked _ _ _)).
Qed.

(** ** [detect_colour]: the stages and the effects *)

Section ColourEffects.
Context `{cv : Cv2}.

Lemma for_fold_stateless {A S} (body : S -> A -> M S) :
  (forall s x, stateless (body s x)) ->
  forall xs s, stateless (for_fold xs s body).
Proof.
  intros Hbody xs; induction xs as [|x xs IH]; intros s.
  - exists (Ok s). reflexivity.
  - destruct (Hbody s x) as [[s'|e] Hr].
    + destruct (IH s') as [r Hr']. exists r. intros w.
      simpl. unfold bind. now rewrite Hr, Hr'.
    + exists (Raise e). intros w. simpl. unfold bind. now rewrite Hr.
Qed.

Lemma aspect_test_stateless (w h : Z) : stateless (aspect_test w h).
Proof.
  unfold aspect_test, stateless, bind, lift, ret.
  destruct (py_truediv w h) as [q|e].
  - destruct (F64.leb F64.f0_8 q); eexists; intros w0; reflexivity.
  - eexists; intros w0; reflexivity.
Qed.

Lemma visit_contour_stateless (min_contour max_contour : Z)
      (bboxes : list Rect) (contour : Contour) :
  stateless (visit_contour min_contour max_contour bboxes contour).
Proof.
  unfold visit_contour.
  destruct (area_test _ _ _); [|eexists; intros w; reflexivity].
  unfold bind, lift. simpl boundingRect.
  destruct (pointSetBoundingRect contour) as [[[x y] bw] bh].
  destruct (aspect_test_stateless bw bh) as [[[|]|e] Hr];
    eexists; intros w; rewrite Hr; reflexivity.
Qed.

(** On a zero-size frame the first call, [cv2.cvtColor], raises: nothing
    is written, scanned or logged. *)
Lemma detect_colour_empty_frame (frame : Frame) (min_hsv max_hsv : pixel)
      (min_contour max_contour : Z) (dump : bool) (w : World) :
  is_empty frame = true ->
  detect_colour frame min_hsv max_hsv min_contour max_contour dump w
  = (w, Raise Cv2Error).
Proof.
  intros He. unfold detect_colour, bind at 1, lift at 1, cvtColor_BGR2HSV.
  now rewrite He.
Qed.

(** What a run of [detect_colour] does on any other frame: the dumps when
    asked for, the scan of the contours, which has a result of its own, and
    the log lines of the boxes found. *)
Lemma detect_colour_run (frame : Frame) (min_hsv max_hsv : pixel)
      (min_contour max_contour : Z) :
  is_empty frame = false ->
  exists r : result (list Rect),
    (forall w,
        for_fold (enumerate (contours_found frame min_hsv max_hsv)) []
                 (fun bboxes '(i, contour) =>
                    visit_contour min_contour max_contour bboxes contour) w
        = (w, r))
    /\ forall (dump : bool) (w : World),
      detect_colour frame min_hsv max_hsv min_contour max_contour dump w
      = (after_log r (after_dump dump (dump_files frame min_hsv max_hsv) w), r).
Proof.
  intros He.
  destruct (for_fold_stateless
              (fun bboxes '(i, contour) =>
                 visit_contour min_contour max_contour bboxes contour)
              (fun s '(i, c) => visit_contour_stateless _ _ s c)
              (enumerate (contours_found frame min_hsv max_hsv)) [])
    as [r Hr].
  exists r. split; [exact Hr|].
  intros dump w. unfold detect_colour.
  unfold bind at 1, lift at 1, cvtColor_BGR2HSV. rewrite He.
  fold (hsv_frame frame). fold (green_mask frame min_hsv max_hsv).
  fold (green_mask_dilated frame min_hsv max_hsv).
  fold (img_masked frame min_hsv max_hsv).
  unfold cvtColor_BGR2GRAY.
  rewrite (img_masked_not_empty frame min_hsv max_hsv He).
  fold (contours_found frame min_hsv max_hsv).
  destruct dump; unfold when, bind at 1 2 3 4, lift; simpl.
  - unfold bind at 1. unfold bind at 1. rewrite Hr. rewrite <- !app_assoc. simpl.
    destruct r as [boxes|e]; [|reflexivity].
    unfold bind. simpl. rewrite !log_detected_run. reflexivity.
  - unfold bind at 1. unfold bind at 1. rewrite Hr.
    destruct r as [boxes|e]; [|now destruct w].
    unfold bind. simpl. rewrite !log_detected_run. reflexivity.
Qed.

End ColourEffects.

Lemma disk_after_log (r : result (list Rect)) (w : World) :
  disk (after_log r w) = disk w.
Proof.
  destruct r as [boxes|e]; [|reflexivity].
  unfold after_log. now rewrite log_detected_run.
Qed.

Lemma log_after_log_dump (r : result (list Rect)) (dump : bool)
      (files : list (string * Picture)) (w : World) :
  log (after_log r (after_dump dump files w)) = log (after_log r w).
Proof.
  destruct r as [boxes|e]; destruct dump; simpl;
    rewrite ?log_detected_run; reflexivity.
Qed.

(** What [detect_colour] returns does not depend on the log, on the files
    on disk or on the clock. (That two calls on one frame return the same
    boxes needs more: that OpenCV's calls return the same thing twice,
    which an interface of functions cannot but say.) *)
Lemma detect_colour_reads_no_state `{cv : Cv2}
      (frame : Frame) (min_hsv max_hsv : pixel)
      (min_contour max_contour : Z) (dump : bool) (w1 w2 : World) :
  snd (detect_colour frame min_hsv max_hsv min_contour max_contour dump w1)
  = snd (detect_colour frame min_hsv max_hsv min_contour max_contour dump w2).
Proof.
  destruct (is_empty frame) eqn:He.
  - now rewrite !detect_colour_empty_frame.
  - destruct (detect_colour_run frame min_hsv max_hsv min_contour
                                max_contour He) as (r & _ & Hrun).
    now rewrite !Hrun.
Qed.

(** C8: on a frame that is not of size zero, without [dump] no file is
    written. With [dump] exactly four are, in this order: [hsv_frame.jpg]
    (the HSV frame), [green_mask.jpg] (the mask before dilation),
    [green_mask_dilated.jpg] (the dilated mask) and [img_masked.jpg] (the
    masked colour frame); each name then holds the new image, whatever was
    on disk under it. The value returned and the lines logged are the same
    either way. *)
Theorem detect_colour_dump `{cv : Cv2}
        (frame : Frame) (min_hsv max_hsv : pixel)
        (min_contour max_contour : Z) (w : World) :
  is_empty frame = false ->
  let call := detect_colour frame min_hsv max_hsv min_contour max_contour in
  disk (fst (call false w)) = disk w
  /\ disk (fst (call true w))
     = (disk w
        ++ [ ("hsv_frame.jpg", Colour3 (hsv_frame frame));
             ("green_mask.jpg", Grey1 (green_mask frame min_hsv max_hsv));
             ("green_mask_dilated.jpg",
              Grey1 (green_mask_dilated frame min_hsv max_hsv));
             ("img_masked.jpg",
              Colour3 (img_masked frame min_hsv max_hsv)) ])%list
  /\ read_file "hsv_frame.jpg" (disk (fst (call true w)))
     = Some (Colour3 (hsv_frame frame))
  /\ read_file "green_mask.jpg" (disk (fst (call true w)))
     = Some (Grey1 (green_mask frame min_hsv max_hsv))
  /\ read_file "green_mask_dilated.jpg" (disk (fst (call true w)))
     = Some (Grey1 (green_mask_dilated frame min_hsv max_hsv))
  /\ read_file "img_masked.jpg" (disk (fst (call true w)))
     = Some (Colour3 (img_masked frame min_hsv max_hsv))
  /\ snd (call true w) = snd (call false w)
  /\ log (fst (call true w)) = log (fst (call false w)).
Proof.
  intros He.
  destruct (detect_colour_run frame min_hsv max_hsv min_contour max_contour He)
    as (r & _ & Hrun).
  simpl. rewrite !Hrun. cbn [fst snd]. rewrite !disk_after_log.
  split; [reflexivity|]. split; [reflexivity|].
  unfold read_file, after_dump, dump_files; cbn [disk].
  rewrite rev_app_distr.
  do 5 (split; [reflexivity|]).
  exact (log_after_log_dump r true (dump_files frame min_hsv max_hsv) w).
Qed.

(** ** Bounding rectangles of contours *)

Lemma fold_min_le (l : list Z) (a : Z) : fold_left Z.min l a <= a.
Proof.
  revert a; induction l as [|x l IH]; intros a; simpl; [lia|].
  specialize (IH (Z.min a x)). lia.
Qed.

Lemma fold_max_ge (l : list Z) (a : Z) : a <= fold_left Z.max l a.
Proof.
  revert a; induction l as [|x l IH]; intros a; simpl; [lia|].
  specialize (IH (Z.max a x)). lia.
Qed.

Lemma fold_min_ge (lo : Z) (l : list Z) (a : Z) :
  lo <= a -> Forall (fun x => lo <= x) l -> lo <= fold_left Z.min l a.
Proof.
  intros Ha Hl; revert a Ha; induction Hl as [|x l Hx _ IH]; intros a Ha; simpl;
    [exact Ha|].
  apply IH. lia.
Qed.

Lemma fold_max_lt (hi : Z) (l : list Z) (a : Z) :
  a < hi -> Forall (fun x => x < hi) l -> fold_left Z.max l a < hi.
Proof.
  intros Ha Hl; revert a Ha; induction Hl as [|x l Hx _ IH]; intros a Ha; simpl;
    [exact Ha|].
  apply IH. lia.
Qed.

Lemma wrap32_id (z : Z) : int32 z -> wrap32 z = z.
Proof.
  unfold int32, wrap32. intros H.
  rewrite Z.mod_small by (change (2 ^ 32) with (2 ^ 31 + 2 ^ 31); lia). lia.
Qed.

Lemma wrap32_int32 (z : Z) : int32 (wrap32 z).
Proof.
  unfold int32, wrap32.
  pose proof (Z.mod_pos_bound (z + 2 ^ 31) (2 ^ 32) eq_refl).
  change (2 ^ 32) with (2 ^ 31 + 2 ^ 31) in *. lia.
Qed.

(** The rectangle of a point set holds 32-bit ints. *)
Lemma boundingRect_int32 (c : Contour) : rect_int32 (pointSetBoundingRect c).
Proof.
  destruct c as [|[x0 y0] rest]; simpl.
  - unfold int32. repeat split; lia.
  - repeat split; apply wrap32_int32.
Qed.

(** The rectangle of a traced contour: nothing wraps, and the width and
    the height are at least 1. *)
Lemma boundingRect_in_range (c : Contour) (x y bw bh : Z) :
  traced c -> pointSetBoundingRect c = (x, y, bw, bh) ->
  1 <= bw < 2 ^ 31 /\ 1 <= bh < 2 ^ 31.
Proof.
  intros [Hne Hr] H.
  destruct c as [|[x0 y0] rest]; [congruence|].
  inversion Hr as [|p l [Hx0 Hy0] Hrest]; subst. simpl in Hx0, Hy0.
  assert (Hfst : Forall (fun v => 0 <= v) (map fst rest)
                 /\ Forall (fun v => v < 2 ^ 31 - 1) (map fst rest)).
  { split; apply Forall_map; eapply Forall_impl; try exact Hrest;
      intros p [Hp _]; lia. }
  assert (Hsnd : Forall (fun v => 0 <= v) (map snd rest)
                 /\ Forall (fun v => v < 2 ^ 31 - 1) (map snd rest)).
  { split; apply Forall_map; eapply Forall_impl; try exact Hrest;
      intros p [_ Hp]; lia. }
  pose proof (fold_min_le (map fst rest) x0).
  pose proof (fold_max_ge (map fst rest) x0).
  pose proof (fold_min_le (map snd rest) y0).
  pose proof (fold_max_ge (map snd rest) y0).
  pose proof (fold_min_ge 0 _ _ (proj1 Hx0) (proj1 Hfst)).
  pose proof (fold_max_lt _ _ _ (proj2 Hx0) (proj2 Hfst)).
  pose proof (fold_min_ge 0 _ _ (proj1 Hy0) (proj1 Hsnd)).
  pose proof (fold_max_lt _ _ _ (proj2 Hy0) (proj2 Hsnd)).
  simpl in H. injection H as _ _ <- <-.
  rewrite !wrap32_id by (unfold int32; lia). lia.
Qed.

Lemma py_truediv_ok (a b : Z) :
  b <> 0 -> py_truediv a b = Ok (F64.div (F64.of_Z a) (F64.of_Z b)).
Proof.
  intros Hb. unfold py_truediv.
  now replace (b =? 0) with false by (symmetry; apply Z.eqb_neq, Hb).
Qed.

Section ColourLoop.
Context `{cv : Cv2}.
Variables min_contour max_contour : Z.

(** The aspect test of a traced contour's box is passed. *)
Lemma aspect_test_traced (c : Contour) (x y bw bh : Z) (w : World) :
  traced c -> pointSetBoundingRect c = (x, y, bw, bh) ->
  aspect_test bw bh w = (w, Ok true).
Proof.
  intros Ht Hrect.
  destruct (boundingRect_in_range c x y bw bh Ht Hrect) as [_ Hh].
  assert (Hb : 0 < bh < 2 ^ 53) by lia.
  unfold aspect_test, bind, lift. rewrite py_truediv_ok by lia.
  pose proof (F64Facts.ge_0_8_or_le_1_2 _ (F64Facts.div_of_Z_not_nan bw bh Hb)) as Hq.
  destruct (F64.leb F64.f0_8 _); [reflexivity|].
  simpl in Hq. unfold ret. now rewrite Hq.
Qed.

Lemma visit_contour_traced (bboxes : list Rect) (c : Contour) (w : World) :
  traced c ->
  visit_contour min_contour max_contour bboxes c w
  = (w, Ok (if area_ok min_contour max_contour c
          then bboxes ++ [pointSetBoundingRect c] else bboxes)%list).
Proof.
  intros Ht. unfold visit_contour, area_ok.
  destruct (area_test _ _ _); [|reflexivity].
  unfold bind at 1, lift at 1. simpl boundingRect. cbv iota beta.
  destruct (pointSetBoundingRect c) as [[[x y] bw] bh] eqn:Hrect.
  unfold bind. now rewrite (aspect_test_traced c x y bw bh w Ht Hrect).
Qed.

Lemma scan_traced (contours : list Contour) :
  Forall traced contours ->
  forall (n : Z) (bboxes : list Rect) (w : World),
    for_fold (enumerate_from n contours) bboxes
             (fun bboxes '(i, contour) =>
                visit_contour min_contour max_contour bboxes contour) w
    = (w, Ok (bboxes ++ map pointSetBoundingRect
                          (filter (area_ok min_contour max_contour) contours))%list).
Proof.
  induction 1 as [|c contours Hc _ IH]; intros n bboxes w; simpl.
  - now rewrite app_nil_r.
  - unfold bind. rewrite (visit_contour_traced bboxes c w Hc).
    rewrite IH. destruct (area_ok min_contour max_contour c); simpl; [|reflexivity].
    now rewrite <- app_assoc.
Qed.

End ColourLoop.

(** ** Comparing an area with an int *)

Lemma cmp_ge (a b : Z) :
  match a ?= b with Gt | Eq => true | Lt => false end = true <-> b <= a.
Proof. destruct (Z.compare_spec a b); split; intros; try lia; try discriminate; reflexivity. Qed.

Lemma cmp_le (a b : Z) :
  match a ?= b with Lt | Eq => true | Gt => false end = true <-> a <= b.
Proof. destruct (Z.compare_spec a b); split; intros; try lia; try discriminate; reflexivity. Qed.

(** On a finite float, [ge_Z] and [le_Z] are the order of the rationals. *)
Lemma ge_Z_spec (f : F64.float) (n : Z) (q : Q) :
  F64.to_Q f = Some q -> (F64.ge_Z f n = true <-> (n # 1 <= q)%Q).
Proof.
  unfold F64.ge_Z, F64.cmp_Z, F64.to_Q, Qle.
  destruct f as [s|s| |s m e]; try discriminate.
  - intros [= <-]. cbn [Qnum Qden]. rewrite cmp_ge. lia.
  - destruct e as [|p|p]; intros [= <-]; cbn [Qnum Qden];
      rewrite cmp_ge, ?Pos2Z.inj_pow; lia.
Qed.

Lemma le_Z_spec (f : F64.float) (n : Z) (q : Q) :
  F64.to_Q f = Some q -> (F64.le_Z f n = true <-> (q <= n # 1)%Q).
Proof.
  unfold F64.le_Z, F64.cmp_Z, F64.to_Q, Qle.
  destruct f as [s|s| |s m e]; try discriminate.
  - intros [= <-]. cbn [Qnum Qden]. rewrite cmp_le. lia.
  - destruct e as [|p|p]; intros [= <-]; cbn [Qnum Qden];
      rewrite cmp_le, ?Pos2Z.inj_pow; lia.
Qed.

(** ** [detect_colour]: which boxes are returned *)

(** C1: on a frame that is not of size zero, when the contours found are
    traced contours, [detect_colour] returns the bounding boxes of exactly
    the contours whose area [a] satisfies
    [min_contour <= a <= max_contour], in the order they were found. The
    aspect test that follows holds of every such box: a ratio that is not
    a NaN is at least 0.8 or at most 1.2, so the test removes no box. *)
Theorem detect_colour_keeps_by_area `{cv : Cv2}
        (frame : Frame) (min_hsv max_hsv : pixel)
        (min_contour max_contour : Z) (dump : bool) (w : World) :
  is_empty frame = false ->
  Forall traced (contours_found frame min_hsv max_hsv) ->
  let contours := contours_found frame min_hsv max_hsv in
  let kept := filter (area_ok min_contour max_contour) contours in
  snd (detect_colour frame min_hsv max_hsv min_contour max_contour dump w)
  = Ok (map pointSetBoundingRect kept)
  /\ (forall c : Contour,
         In c contours ->
         (In c kept <-> F64.ge_Z (contourArea c) min_contour = true
                        /\ F64.le_Z (contourArea c) max_contour = true))
  /\ (forall (c : Contour) (a : Q),
         F64.to_Q (contourArea c) = Some a ->
         (F64.ge_Z (contourArea c) min_contour = true
          /\ F64.le_Z (contourArea c) max_contour = true
          <-> (min_contour # 1 <= a)%Q /\ (a <= max_contour # 1)%Q))
  /\ (forall (c : Contour) (x y bw bh : Z) (w0 : World),
         In c contours -> pointSetBoundingRect c = (x, y, bw, bh) ->
         aspect_test bw bh w0 = (w0, Ok true))
  /\ (forall q : F64.float,
         F64.is_nan q = false ->
         F64.leb F64.f0_8 q || F64.leb q F64.f1_2 = true).
Proof.
  intros He Htraced contours kept.
  destruct (detect_colour_run frame min_hsv max_hsv min_contour max_contour He)
    as (r & Hscan & Hrun).
  split.
  - rewrite Hrun. cbn [snd].
    specialize (Hscan w). unfold enumerate in Hscan.
    rewrite (scan_traced min_contour max_contour _ Htraced) in Hscan.
    now injection Hscan as <-.
  - split; [|split; [|split]].
    + intros c Hc. subst kept. rewrite filter_In.
      unfold area_ok, area_test. rewrite andb_true_iff. tauto.
    + intros c a Ha.
      rewrite (ge_Z_spec _ min_contour a Ha), (le_Z_spec _ max_contour a Ha).
      tauto.
    + intros c x y bw bh w0 Hc Hrect.
      apply (aspect_test_traced c x y bw bh w0); [|exact Hrect].
      rewrite Forall_forall in Htraced. now apply Htraced.
    + exact F64Facts.ge_0_8_or_le_1_2.
Qed.

(** C9: the [w / h] of the aspect test cannot divide by zero. On a frame
    that is not of size zero, the bounding rectangle of every contour found
    (a traced contour: at least one point, pixel coordinates) has a width
    and a height of at least 1, within the 32-bit ints, so the quotient is
    computed; and [detect_colour] raises nothing. *)
Theorem aspect_ratio_defined `{cv : Cv2}
        (frame : Frame) (min_hsv max_hsv : pixel)
        (min_contour max_contour : Z) (dump : bool) (w : World) :
  is_empty frame = false ->
  Forall traced (contours_found frame min_hsv max_hsv) ->
  (forall c : Contour,
      In c (contours_found frame min_hsv max_hsv) ->
      exists (x y bw bh : Z) (q : F64.float),
        boundingRect (PointArray c) = Ok (x, y, bw, bh)
        /\ 1 <= bw < 2 ^ 31 /\ 1 <= bh < 2 ^ 31
        /\ py_truediv bw bh = Ok q)
  /\ exists boxes : list Rect,
      snd (detect_colour frame min_hsv max_hsv min_contour max_contour dump w)
      = Ok boxes.
Proof.
  intros He Htraced. split.
  - intros c Hc. rewrite Forall_forall in Htraced. specialize (Htraced c Hc).
    destruct (pointSetBoundingRect c) as [[[x y] bw] bh] eqn:Hrect.
    destruct (boundingRect_in_range c x y bw bh Htraced Hrect) as [Hw Hh].
    exists x, y, bw, bh. eexists.
    split; [simpl; now rewrite Hrect|].
    split; [exact Hw|]. split; [exact Hh|].
    apply py_truediv_ok. lia.
  - destruct (detect_colour_run frame min_hsv max_hsv min_contour max_contour
                                He) as (r & Hscan & Hrun).
    eexists. rewrite Hrun. cbn [snd].
    specialize (Hscan w). unfold enumerate in Hscan.
    rewrite (scan_traced min_contour max_contour _ Htraced) in Hscan.
    injection Hscan as <-. reflexivity.
Qed.

(** ** [detect_colour]: nothing in range *)

Lemma inRange_blank (f : Frame) (lo hi : pixel) :
  outside_range f lo hi -> blank (inRange f lo hi).
Proof.
  intros H. unfold blank, inRange. apply Forall_map.
  eapply Forall_impl; [|exact H]. intros row Hrow.
  apply Forall_map. eapply Forall_impl; [|exact Hrow].
  intros p Hp. now rewrite Hp.
Qed.

Lemma at_blank (m : Mask) (y x v : Z) :
  blank m -> at_ m y x = Some v -> v = 0.
Proof.
  intros Hm. unfold at_.
  destruct ((y <? 0) || (x <? 0)); [discriminate|].
  destruct (nth_error m (Z.to_nat y)) as [row|] eqn:Hrow; [|discriminate].
  intros Hv. apply nth_error_In in Hrow, Hv.
  unfold blank in Hm. rewrite Forall_forall in Hm.
  specialize (Hm row Hrow). rewrite Forall_forall in Hm. now apply Hm.
Qed.

Lemma dilate_blank (m kernel : Mask) : blank m -> blank (dilate m kernel).
Proof.
  intros Hm. unfold blank, dilate.
  apply Forall_map, Forall_forall. intros [y row] _.
  apply Forall_map, Forall_forall. intros [x v] _.
  generalize (kernel_offsets kernel) as offs.
  assert (H0 : forall offs acc,
             acc = 0 ->
             fold_left (fun acc '(dy, dx) =>
                          match at_ m (y + dy) (x + dx) with
                          | Some v => Z.max acc v
                          | None => acc
                          end) offs acc = 0).
  { induction offs as [|[dy dx] offs IH]; intros acc ->; simpl; [reflexivity|].
    apply IH. destruct (at_ m (y + dy) (x + dx)) as [u|] eqn:Hu; [|reflexivity].
    now rewrite (at_blank m _ _ u Hm Hu). }
  intros offs. now apply H0.
Qed.

Lemma bitwise_and_black (src1 src2 : Frame) (mask : Mask) :
  blank mask -> black (bitwise_and src1 src2 mask).
Proof.
  intros Hm. unfold black, bitwise_and.
  apply Forall_map, Forall_forall. intros [[r1 r2] mrow] Hin.
  apply in_combine_r in Hin.
  unfold blank in Hm. rewrite Forall_forall in Hm. specialize (Hm mrow Hin).
  apply Forall_map, Forall_forall. intros [[p1 p2] v] Hv.
  apply in_combine_r in Hv.
  rewrite Forall_forall in Hm. now rewrite (Hm v Hv).
Qed.

Section NothingInRange.
Context `{cv : Cv2}.

(** Black is grey level 0, and an image with no pixel set has no contour. *)
Hypothesis gray_of_black : bgr2gray (0, 0, 0) = 0.
Hypothesis findContours_blank : forall img, blank img -> findContours img = [].

Lemma pixels_BGR2GRAY_blank (f : Frame) :
  black f -> blank (pixels_BGR2GRAY f).
Proof.
  intros H. unfold blank, pixels_BGR2GRAY. apply Forall_map.
  eapply Forall_impl; [|exact H]. intros row Hrow.
  apply Forall_map. eapply Forall_impl; [|exact Hrow].
  intros p ->. exact gray_of_black.
Qed.

(** C6: on a frame that is not of size zero, when no pixel of the HSV
    frame lies within [min_hsv, max_hsv] (componentwise, bounds included),
    [detect_colour] returns the empty list; the only line it logs is the
    summary of zero blobs. *)
Theorem detect_colour_nothing_in_range
        (frame : Frame) (min_hsv max_hsv : pixel)
        (min_contour max_contour : Z) (dump : bool) (w : World) :
  is_empty frame = false ->
  outside_range (hsv_frame frame) min_hsv max_hsv ->
  snd (detect_colour frame min_hsv max_hsv min_contour max_contour dump w) = Ok []
  /\ log (fst (detect_colour frame min_hsv max_hsv min_contour max_contour dump w))
     = (log w ++ ["Found 0 blobs in frame."])%list.
Proof.
  intros He Hout.
  assert (Hc : contours_found frame min_hsv max_hsv = []).
  { apply findContours_blank, pixels_BGR2GRAY_blank, bitwise_and_black,
      dilate_blank, inRange_blank, Hout. }
  destruct (detect_colour_run frame min_hsv max_hsv min_contour max_contour He)
    as (r & Hscan & Hrun).
  rewrite Hc in Hscan. specialize (Hscan w). simpl in Hscan.
  injection Hscan as <-.
  rewrite Hrun. cbn [fst snd]. split; [reflexivity|].
  rewrite log_after_log_dump. unfold after_log.
  now rewrite log_detected_run.
Qed.

End NothingInRange.

(** ** [detect_blobs] *)

Lemma not8_spec (v : Z) : u8 v -> not8 v = 255 - v.
Proof.
  intros Hv. unfold not8, u8 in *.
  change 255 with (Z.ones 8) at 1. rewrite Z.land_ones by lia.
  unfold Z.lnot.
  symmetry. apply Z.mod_unique with (q := -1); lia.
Qed.

Lemma list_comp_raises `{cv : Cv2} {A B} (f : A -> M B) (e : exn)
      (x : A) (xs : list A) (w : World) :
  (forall w, f x w = (w, Raise e)) ->
  list_comp f (x :: xs) w = (w, Raise e).
Proof. intros H. simpl. unfold bind. now rewrite H. Qed.

(** [blob_params] with areas that fit a double. *)
Lemma blob_params_run (min_area max_area : Z) (w : World) :
  F64.is_finite (F64.of_Z min_area) = true ->
  F64.is_finite (F64.of_Z max_area) = true ->
  blob_params min_area max_area w
  = (w, Ok {| filterByColor := true; blobColor := 0;
              filterByArea := true;
              minArea := F32.of_Z min_area; maxArea := F32.of_Z max_area;
              filterByCircularity := true;
              minCircularity := S754_finite false 15099494 (-24) |}).
Proof.
  intros Hmin Hmax. unfold blob_params, bind, lift, float_field.
  rewrite Hmin, Hmax. reflexivity.
Qed.

(** An area too large for a double: the assignment raises. *)
Lemma blob_params_overflow (min_area max_area : Z) (w : World) :
  F64.is_finite (F64.of_Z min_area) = false
  \/ F64.is_finite (F64.of_Z max_area) = false ->
  blob_params min_area max_area w = (w, Raise OverflowError).
Proof.
  unfold blob_params, bind, lift, float_field.
  destruct (F64.is_finite (F64.of_Z min_area)); [|reflexivity].
  intros [H|H]; [discriminate|]. now rewrite H.
Qed.

(** C7: on a frame that is not of size zero and with areas that fit a
    double, [detect_blobs] inverts the frame (a channel value [v] becomes
    [255 - v]), asks for dark blobs of circularity at least 0.9 (stored as
    the binary32 next to it) and of area within [min_area, max_area], which
    [SimpleBlobDetector_create] validates, and logs nothing. It then hands
    every keypoint found to [cv2.boundingRect], which takes a point array
    and no keypoint: the call returns, with the empty list, only when no
    blob was detected, and raises as soon as there is one. *)
Theorem detect_blobs_run `{cv : Cv2}
        (frame : Frame) (min_area max_area : Z) (w : World) :
  is_empty frame = false ->
  F64.is_finite (F64.of_Z min_area) = true ->
  F64.is_finite (F64.of_Z max_area) = true ->
  exists params : SimpleBlobDetector_Params,
    blob_params min_area max_area w = (w, Ok params)
    /\ detect_blobs frame min_area max_area w
       = (w, match SimpleBlobDetector_create params with
             | Raise e => Raise e
             | Ok detector =>
                 match SimpleBlobDetector_detect detector (bitwise_not frame)
                 with
                 | [] => Ok []
                 | _ :: _ => Raise BadArgument
                 end
             end)
    /\ (SimpleBlobDetector_create params = Ok params
        \/ SimpleBlobDetector_create params = Raise Cv2Error)
    /\ (SimpleBlobDetector_create params = Ok params
        <-> SFltb (S754_zero false) (F32.of_Z min_area) = true
            /\ SFleb (F32.of_Z min_area) (F32.of_Z max_area) = true)
    /\ bitwise_not frame
       = map (map (fun '(b, g, r) => (not8 b, not8 g, not8 r))) frame
    /\ (forall v, 0 <= v <= 255 -> not8 v = 255 - v)
    /\ filterByCircularity params = true
    /\ minCircularity params = S754_finite false 15099494 (-24)
    /\ filterByArea params = true
    /\ minArea params = F32.of_Z min_area
    /\ maxArea params = F32.of_Z max_area
    /\ filterByColor params = true
    /\ blobColor params = 0.
Proof.
  intros _ Hmin Hmax. eexists.
  split; [exact (blob_params_run min_area max_area w Hmin Hmax)|].
  match goal with |- context [SimpleBlobDetector_create ?p] =>
    set (params := p) end.
  assert (Hv : SimpleBlobDetector_create params = Ok params
               <-> SFltb (S754_zero false) (F32.of_Z min_area) = true
                   /\ SFleb (F32.of_Z min_area) (F32.of_Z max_area) = true).
  { unfold SimpleBlobDetector_create. rewrite <- andb_true_iff.
    change (minArea params) with (F32.of_Z min_area).
    change (maxArea params) with (F32.of_Z max_area).
    destruct (SFltb _ _ && SFleb _ _); split; intros H;
      try reflexivity; discriminate. }
  split.
  - unfold detect_blobs. unfold bind at 1.
    rewrite (blob_params_run min_area max_area w Hmin Hmax). fold params.
    unfold bind at 1, lift at 1.
    destruct (SimpleBlobDetector_create params) as [detector|e];
      [|reflexivity].
    destruct (SimpleBlobDetector_detect detector (bitwise_not frame))
      as [|k ks].
    + reflexivity.
    + unfold bind. now rewrite list_comp_raises with (e := BadArgument).
  - split.
    { unfold SimpleBlobDetector_create.
      destruct (SFltb _ _ && SFleb _ _); [now left|now right]. }
    split; [exact Hv|].
    split; [reflexivity|]. split; [exact not8_spec|].
    repeat split; reflexivity.
Qed.

(** ** The reference instance meets the assumptions made of OpenCV *)

Module ReferenceFacts.
Import Reference.

Lemma shape_map_enumerate {A B} (f : Z * list A -> list B) (img : image A) :
  (forall y row, List.length (f (y, row)) = List.length row) ->
  shape (map f (enumerate img)) = shape img.
Proof.
  intros Hf. unfold shape, shape0, shape1, len, enumerate.
  rewrite length_map, length_enumerate_from.
  destruct img as [|row rest]; simpl; [reflexivity|].
  now rewrite Hf.
Qed.

Lemma ref_rectangle_shape (img : Frame) (rec : Rect) (color : Colour) (t : Z) :
  shape (draw_rectangle img rec color t) = shape img.
Proof.
  unfold draw_rectangle.
  apply (shape_map_enumerate
           (fun '(row, ps) =>
              map (fun '(col, p) => if on_border rec col row then color else p)
                  (enumerate ps))).
  intros y row. unfold enumerate.
  now rewrite length_map, length_enumerate_from.
Qed.

Lemma ref_putText_shape (img : Frame) (text : string) (org : Point) (font : Font)
      (scale : F64.float) (color : Colour) (t : Z) :
  shape (putText img text org font scale color t) = shape img.
Proof. reflexivity. Qed.

Lemma flat_map_nil {A B} (f : A -> list B) (l : list A) :
  (forall x, In x l -> f x = []) -> flat_map f l = [].
Proof.
  induction l as [|x l IH]; intros H; simpl; [reflexivity|].
  rewrite (H x (or_introl eq_refl)), IH; [reflexivity|].
  intros y Hy. apply H. now right.
Qed.

Lemma in_enumerate {A} (xs : list A) (i : Z) (x : A) :
  In (i, x) (enumerate xs) -> In x xs.
Proof.
  intros H. apply (in_map snd) in H. unfold enumerate in H.
  now rewrite map_snd_enumerate_from in H.
Qed.

Lemma ref_findContours_blank (img : Mask) : blank img -> findContours img = [].
Proof.
  intros Hb. unfold findContours, positions.
  rewrite flat_map_nil; [reflexivity|].
  intros [y row] Hrow. apply in_enumerate in Hrow.
  unfold blank in Hb. rewrite Forall_forall in Hb. specialize (Hb row Hrow).
  apply flat_map_nil. intros [x v] Hv. apply in_enumerate in Hv.
  rewrite Forall_forall in Hb. now rewrite (Hb v Hv).
Qed.

End ReferenceFacts.

(** ** The theorems at concrete inputs *)

Module Examples.
Import Reference Inputs MoreInputs.

Lemma green_square_contours :
  @contours_found cv green_square MIN_DETECT_HSV MAX_DETECT_HSV
  = [[(10, 10); (10, 21); (21, 21); (21, 10)]].
Proof. vm_compute. reflexivity. Qed.

Lemma green_square_traced :
  Forall traced (@contours_found cv green_square MIN_DETECT_HSV MAX_DETECT_HSV).
Proof.
  rewrite green_square_contours.
  repeat first [ apply Forall_cons | apply Forall_nil ].
  split; [discriminate|].
  repeat first [ apply Forall_cons | apply Forall_nil ];
    unfold in_image_range; simpl; lia.
Qed.

Lemma float_boxes_finite : Forall box_finite float_boxes.
Proof.
  repeat first [ apply Forall_cons | apply Forall_nil ];
    repeat split; vm_compute; reflexivity.
Qed.

Lemma float_boxes_truncated :
  map truncated float_boxes = [(2, 1, -3, 4); (0, 0, 2, 2)].
Proof. vm_compute. reflexivity. Qed.

Lemma float_boxes_drawable : Forall box_drawable float_boxes.
Proof.
  repeat first [ apply Forall_cons | apply Forall_nil ];
    (split; [repeat split; vm_compute; reflexivity|]);
    vm_compute; repeat split; discriminate.
Qed.

Lemma one_box_int32 : Forall rect_int32 [(10, 10, 12, 12)].
Proof.
  apply Forall_cons; [|apply Forall_nil].
  vm_compute. repeat split; discriminate.
Qed.

Lemma detect_colour_keeps_by_area_witness :
  is_empty green_square = false
  /\ Forall traced (@contours_found cv green_square MIN_DETECT_HSV
                                    MAX_DETECT_HSV)
  /\ snd (@detect_colour cv green_square MIN_DETECT_HSV MAX_DETECT_HSV
                         MIN_DETECT_CONTOUR MAX_DETECT_CONTOUR false world0)
     = Ok [(10, 10, 12, 12)].
Proof.
  split; [reflexivity|]. split; [exact green_square_traced|].
  destruct (@detect_colour_keeps_by_area cv green_square MIN_DETECT_HSV
              MAX_DETECT_HSV MIN_DETECT_CONTOUR MAX_DETECT_CONTOUR false
              world0 eq_refl green_square_traced) as [Hres _].
  rewrite Hres, green_square_contours. vm_compute. reflexivity.
Defined.

Lemma aspect_ratio_defined_witness :
  is_empty green_square = false
  /\ Forall traced (@contours_found cv green_square MIN_DETECT_HSV
                                    MAX_DETECT_HSV)
  /\ exists boxes,
      snd (@detect_colour cv green_square MIN_DETECT_HSV MAX_DETECT_HSV
                          MIN_DETECT_CONTOUR MAX_DETECT_CONTOUR true world0)
      = Ok boxes.
Proof.
  split; [reflexivity|]. split; [exact green_square_traced|].
  exact (proj2 (@aspect_ratio_defined cv green_square MIN_DETECT_HSV
                  MAX_DETECT_HSV MIN_DETECT_CONTOUR MAX_DETECT_CONTOUR true
                  world0 eq_refl green_square_traced)).
Defined.

Lemma detect_colour_dump_witness :
  is_empty green_square = false
  /\ map fst (disk (fst (@detect_colour cv green_square MIN_DETECT_HSV
                                        MAX_DETECT_HSV MIN_DETECT_CONTOUR
                                        MAX_DETECT_CONTOUR true world0)))
     = ["hsv_frame.jpg"; "green_mask.jpg"; "green_mask_dilated.jpg";
        "img_masked.jpg"].
Proof.
  split; [reflexivity|].
  destruct (@detect_colour_dump cv green_square MIN_DETECT_HSV MAX_DETECT_HSV
              MIN_DETECT_CONTOUR MAX_DETECT_CONTOUR world0 eq_refl)
    as (_ & Hdisk & _).
  rewrite Hdisk. reflexivity.
Defined.

Lemma red_square_outside :
  outside_range (@hsv_frame cv red_square) MIN_DETECT_HSV MAX_DETECT_HSV.
Proof.
  vm_compute. repeat first [ apply Forall_cons | apply Forall_nil | reflexivity ].
Qed.

Lemma detect_colour_nothing_in_range_witness :
  is_empty red_square = false
  /\ outside_range (@hsv_frame cv red_square) MIN_DETECT_HSV MAX_DETECT_HSV
  /\ snd (@detect_colour cv red_square MIN_DETECT_HSV MAX_DETECT_HSV
                         MIN_DETECT_CONTOUR MAX_DETECT_CONTOUR false world0)
     = Ok []
  /\ log (fst (@detect_colour cv red_square MIN_DETECT_HSV MAX_DETECT_HSV
                              MIN_DETECT_CONTOUR MAX_DETECT_CONTOUR false
                              world0))
     = (log world0 ++ ["Found 0 blobs in frame."])%list.
Proof.
  split; [reflexivity|]. split; [exact red_square_outside|].
  exact (@detect_colour_nothing_in_range cv eq_refl
           ReferenceFacts.ref_findContours_blank red_square MIN_DETECT_HSV
           MAX_DETECT_HSV MIN_DETECT_CONTOUR MAX_DETECT_CONTOUR false world0
           eq_refl red_square_outside).
Defined.

Lemma draw_annotations_players_witness :
  Forall rect_int32 [(10, 10, 12, 12)]
  /\ @draw_annotations cv green_square (map of_ints [(10, 10, 12, 12)]) world0
     = (world0,
        Ok (@perform_all cv green_square
              (timestamp_call (clock world0) (shape0 green_square)
               :: annotation_calls 1 [(10, 10, 12, 12)])))
  /\ text_labels (annotation_calls 1 [(10, 10, 12, 12)]) = ["Player1"].
Proof.
  split; [exact one_box_int32|].
  destruct (@draw_annotations_players cv green_square [(10, 10, 12, 12)]
              world0 one_box_int32) as (Hrun & _ & _ & Hlabels & _).
  split; [exact Hrun|exact Hlabels].
Defined.

Lemma draw_annotations_shape_witness :
  Forall box_drawable float_boxes
  /\ exists frame',
      @draw_annotations cv red_square float_boxes world0 = (world0, Ok frame')
      /\ shape frame' = (6, 6).
Proof.
  split; [exact float_boxes_drawable|].
  destruct (@draw_annotations_shape cv ReferenceFacts.ref_rectangle_shape
              ReferenceFacts.ref_putText_shape red_square float_boxes world0
              float_boxes_drawable)
    as (frame' & rects & Hrun & _ & Hshape & _).
  exists frame'. split; [exact Hrun|]. exact Hshape.
Defined.

Lemma draw_annotations_truncates_witness :
  Forall box_drawable float_boxes
  /\ map truncated float_boxes = [(2, 1, -3, 4); (0, 0, 2, 2)]
  /\ @draw_annotations cv red_square float_boxes world0
     = (world0,
        Ok (@perform_all cv red_square
              (timestamp_call (clock world0) 6
               :: annotation_calls 1 [(2, 1, -3, 4); (0, 0, 2, 2)]))).
Proof.
  split; [exact float_boxes_drawable|].
  split; [exact float_boxes_truncated|].
  exact (proj1 (@draw_annotations_truncates cv red_square float_boxes world0
                  float_boxes_drawable)).
Defined.

(** [detect_blobs] on a frame with a filled octagon, in a run in which the
    detector reports the blob: the keypoint goes to [cv2.boundingRect] and
    the call raises. *)
Lemma detect_blobs_run_witness :
  is_empty white_octagon = false
  /\ F64.is_finite (F64.of_Z MIN_DETECT_CONTOUR) = true
  /\ F64.is_finite (F64.of_Z MAX_DETECT_CONTOUR) = true
  /\ @detect_blobs (reporting [octagon_keypoint]) white_octagon
                   MIN_DETECT_CONTOUR MAX_DETECT_CONTOUR world0
     = (world0, Raise BadArgument).
Proof.
  split; [reflexivity|]. split; [reflexivity|]. split; [reflexivity|].
  destruct (@detect_blobs_run (reporting [octagon_keypoint]) white_octagon
              MIN_DETECT_CONTOUR MAX_DETECT_CONTOUR world0
              eq_refl eq_refl eq_refl)
    as (params & _ & Hrun & _ & Hvalid & _).
  rewrite Hrun, (proj2 Hvalid (conj eq_refl eq_refl)). reflexivity.
Defined.

(** [detect_blobs] on the green square: a square is not circular enough to
    be reported, and the call returns the empty list. *)
Example detect_blobs_green_square :
  @detect_blobs cv green_square MIN_DETECT_CONTOUR MAX_DETECT_CONTOUR world0
  = (world0, Ok []).
Proof. vm_compute. reflexivity. Qed.

(** Areas out of order: the detector is not created. *)
Example detect_blobs_areas_out_of_order :
  @detect_blobs cv green_square 400 100 world0 = (world0, Raise Cv2Error)
  /\ @detect_blobs cv green_square 0 100 world0 = (world0, Raise Cv2Error).
Proof. split; vm_compute; reflexivity. Qed.

(** An area too large for a double: the assignment to [minArea] raises. *)
Example detect_blobs_area_overflow :
  @detect_blobs cv green_square (2 ^ 1024) (2 ^ 1024) world0
  = (world0, Raise OverflowError).
Proof. vm_compute. reflexivity. Qed.

(** A zero-size frame: [cv2.cvtColor] raises, and nothing is written. *)
Example detect_colour_zero_size :
  @detect_colour cv [] MIN_DETECT_HSV MAX_DETECT_HSV
                 MIN_DETECT_CONTOUR MAX_DETECT_CONTOUR true world0
  = (world0, Raise Cv2Error).
Proof. reflexivity. Qed.

(** A NaN among the coordinates: [int()] raises and nothing is returned. *)
Example draw_annotations_nan :
  @draw_annotations cv red_square
                    [(PyFloat S754_nan, PyInt 1, PyInt 2, PyInt 3)] world0
  = (world0, Raise ValueError).
Proof. vm_compute. reflexivity. Qed.

(** A width of 2^31: [int()] accepts it, [cv2.rectangle] does not. *)
Example draw_annotations_too_wide :
  @draw_annotations cv red_square
                    [(PyInt 0, PyInt 0, PyInt 2147483648, PyInt 2)] world0
  = (world0, Raise BadArgument).
Proof. vm_compute. reflexivity. Qed.

(** The empty contour is the one with no height: were contour tracing to
    return it, the ratio of its box would divide by zero. *)
Example empty_contour_divides_by_zero :
  boundingRect (PointArray []) = Ok (0, 0, 0, 0)
  /\ py_truediv 0 0 = Raise ZeroDivisionError.
Proof. split; reflexivity. Qed.

End Examples.

(** * Further properties *)

(** ** [detect_colour]: how the scan of the contours can end *)

Section ColourOutcome.
Context `{cv : Cv2}.
Variables min_contour max_contour : Z.

(** One contour: either it stops the scan with [ZeroDivisionError], or the
    list of boxes is returned, as it was or with the contour's box at its
    end. *)
Lemma visit_contour_outcome (bboxes : list Rect) (c : Contour) :
  (stops_scan min_contour max_contour c = true
   /\ forall w, visit_contour min_contour max_contour bboxes c w
                = (w, Raise ZeroDivisionError))
  \/ (stops_scan min_contour max_contour c = false
      /\ exists kept : list Contour,
          (forall w, visit_contour min_contour max_contour bboxes c w
                     = (w, Ok (bboxes ++ map pointSetBoundingRect kept)%list))
          /\ (kept = []
              \/ (kept = [c] /\ area_ok min_contour max_contour c = true))).
Proof.
  unfold stops_scan, visit_contour, area_ok, rect_height.
  destruct (area_test _ _ _).
  - simpl boundingRect.
    destruct (pointSetBoundingRect c) as [[[x y] bw] bh] eqn:Hrect.
    cbn [snd andb].
    unfold bind at 1, lift at 1. cbv iota beta.
    unfold aspect_test, bind, lift, py_truediv.
    destruct (bh =? 0).
    + left. split; [reflexivity|]. intros w. reflexivity.
    + right. split; [reflexivity|].
      destruct (F64.leb F64.f0_8 _).
      * exists [c]. split; [|right; split; reflexivity].
        intros w. simpl. rewrite Hrect. reflexivity.
      * destruct (F64.leb _ F64.f1_2).
        -- exists [c]. split; [|right; split; reflexivity].
           intros w. simpl. rewrite Hrect. reflexivity.
        -- exists []. split; [|now left].
           intros w. simpl. now rewrite app_nil_r.
  - right. split; [reflexivity|]. exists []. split; [|now left].
    intros w. simpl. now rewrite app_nil_r.
Qed.

(** The whole scan: it raises [ZeroDivisionError] when some contour stops
    it; otherwise it returns the boxes of some of the contours that pass
    the area test, in the order of the contours. *)
Lemma scan_outcome (contours : list Contour) (n : Z) (bboxes : list Rect) :
  (Exists (fun c => stops_scan min_contour max_contour c = true) contours
   /\ forall w,
      for_fold (enumerate_from n contours) bboxes
               (fun bboxes '(i, contour) =>
                  visit_contour min_contour max_contour bboxes contour) w
      = (w, Raise ZeroDivisionError))
  \/ (Forall (fun c => stops_scan min_contour max_contour c = false) contours
      /\ exists kept : list Contour,
          (forall w,
              for_fold (enumerate_from n contours) bboxes
                       (fun bboxes '(i, contour) =>
                          visit_contour min_contour max_contour bboxes contour) w
              = (w, Ok (bboxes ++ map pointSetBoundingRect kept)%list))
          /\ Forall (fun c => In c contours
                              /\ area_ok min_contour max_contour c = true
                              /\ stops_scan min_contour max_contour c = false)
                    kept
          /\ (List.length kept <= List.length contours)%nat).
Proof.
  revert n bboxes. induction contours as [|c contours IH]; intros n bboxes.
  - right. split; [constructor|]. exists []. split; [|split].
    + intros w. simpl. now rewrite app_nil_r.
    + constructor.
    + simpl. lia.
  - destruct (visit_contour_outcome bboxes c) as [[Hs Hv]|[Hs (k1 & Hv & Hk1)]].
    + left. split; [now apply Exists_cons_hd|].
      intros w. simpl. unfold bind. now rewrite Hv.
    + destruct (IH (n + 1) (bboxes ++ map pointSetBoundingRect k1)%list)
        as [[Hex Hr]|[Hall (k2 & Hr & Hk2 & Hlen)]].
      * left. split; [now apply Exists_cons_tl|].
        intros w. simpl. unfold bind. now rewrite Hv, Hr.
      * right. split; [now constructor|].
        exists (k1 ++ k2)%list. split; [|split].
        -- intros w. simpl. unfold bind. rewrite Hv, Hr.
           now rewrite map_app, app_assoc.
        -- apply Forall_app. split.
           ++ destruct Hk1 as [->|[-> Ha]]; [constructor|].
              constructor; [|constructor].
              split; [now left|]. now split.
           ++ eapply Forall_impl; [|exact Hk2].
              intros c' (Hin & Ha & Hs'). split; [now right|]. now split.
        -- rewrite length_app. simpl.
           destruct Hk1 as [->|[-> _]]; simpl; lia.
Qed.

End ColourOutcome.

Lemma stops_scan_iff `{cv : Cv2} (min_contour max_contour : Z) (c : Contour) :
  stops_scan min_contour max_contour c = true
  <-> area_ok min_contour max_contour c = true
      /\ rect_height (pointSetBoundingRect c) = 0.
Proof. unfold stops_scan. now rewrite andb_true_iff, Z.eqb_eq. Qed.

(** X1: [detect_colour] fails in two cases and no other. On a zero-size
    frame [cv2.cvtColor] raises [cv2.error], before any file is written.
    On another frame it fails exactly when some contour whose area passes
    the test has a bounding rectangle of height 0, with
    [ZeroDivisionError]. In both cases nothing has been logged. *)
Theorem detect_colour_raises_iff `{cv : Cv2}
        (frame : Frame) (min_hsv max_hsv : pixel)
        (min_contour max_contour : Z) (dump : bool) (w : World) :
  let call :=
    detect_colour frame min_hsv max_hsv min_contour max_contour dump w in
  ((exists e, snd call = Raise e)
   <-> is_empty frame = true
       \/ Exists (fun c => area_ok min_contour max_contour c = true
                           /\ rect_height (pointSetBoundingRect c) = 0)
                 (contours_found frame min_hsv max_hsv))
  /\ (forall e, snd call = Raise e ->
                e = (if is_empty frame then Cv2Error else ZeroDivisionError)
                /\ log (fst call) = log w
                /\ (is_empty frame = true -> disk (fst call) = disk w)).
Proof.
  simpl. destruct (is_empty frame) eqn:He.
  { rewrite (detect_colour_empty_frame _ _ _ _ _ _ _ He). cbn [fst snd].
    split.
    - split; [intros _; now left|intros _; now eexists].
    - intros e [= <-]. repeat split. }
  destruct (detect_colour_run frame min_hsv max_hsv min_contour max_contour He)
    as (r & Hscan & Hrun).
  rewrite Hrun. cbn [fst snd].
  specialize (Hscan w). unfold enumerate in Hscan.
  destruct (scan_outcome min_contour max_contour
              (contours_found frame min_hsv max_hsv) 0 [])
    as [[Hex Hr]|[Hall (kept & Hr & _)]]; rewrite Hr in Hscan;
    injection Hscan as <-.
  - split.
    + split; [intros _; right|intros _; now eexists].
      eapply Exists_impl; [|exact Hex].
      intros c Hc. now apply stops_scan_iff.
    + intros e [= <-]. split; [reflexivity|].
      split; [now rewrite log_after_log_dump|discriminate].
  - split.
    + split; [intros [e H]; discriminate|].
      intros [Hemp|Hex]; [discriminate|]. exfalso.
      rewrite Exists_exists in Hex. destruct Hex as (c & Hin & Hc).
      rewrite Forall_forall in Hall. specialize (Hall c Hin).
      apply stops_scan_iff in Hc. congruence.
    + intros e H. discriminate.
Qed.


(** X3: the log of [detect_colour] matches what it returns: one line per
    box returned, numbered from 1 in the order of the result, then the
    summary with the length of the result; when it raises, no line. The
    clock is not touched. *)
Theorem detect_colour_logs_result `{cv : Cv2}
        (frame : Frame) (min_hsv max_hsv : pixel)
        (min_contour max_contour : Z) (dump : bool) (w : World) :
  let call :=
    detect_colour frame min_hsv max_hsv min_contour max_contour dump w in
  log (fst call)
  = (log w
     ++ match snd call with
        | Ok boxes =>
            map (fun entry =>
                   (str (fst entry + 1) ++ ", " ++ repr_box (snd entry))%string)
                (enumerate boxes)
            ++ [("Found " ++ str (len boxes) ++ " blobs in frame.")%string]
        | Raise _ => []
        end)%list
  /\ clock (fst call) = clock w.
Proof.
  destruct (is_empty frame) eqn:He.
  { simpl. rewrite (detect_colour_empty_frame _ _ _ _ _ _ _ He).
    cbn [fst snd]. now rewrite app_nil_r. }
  destruct (detect_colour_run frame min_hsv max_hsv min_contour max_contour He)
    as (r & _ & Hrun).
  simpl. rewrite Hrun. cbn [fst snd]. rewrite log_after_log_dump.
  destruct r as [boxes|e]; simpl.
  - rewrite !log_detected_run. destruct dump; split; reflexivity.
  - rewrite app_nil_r. destruct dump; split; reflexivity.
Qed.

(** ** An empty window of areas *)

Lemma area_test_empty_window (a : F64.float) (min_contour max_contour : Z) :
  max_contour < min_contour -> area_test a min_contour max_contour = false.
Proof.
  intros Hlt. unfold area_test.
  destruct (F64.ge_Z a min_contour) eqn:Hge; [|reflexivity].
  destruct (F64.le_Z a max_contour) eqn:Hle; [|reflexivity].
  exfalso. unfold F64.ge_Z, F64.le_Z, F64.cmp_Z in *.
  destruct a as [s|s| |s m e]; try discriminate.
  - apply cmp_ge in Hge. apply cmp_le in Hle. lia.
  - now destruct s.
  - assert (Hp : forall p, 0 < 2 ^ Z.pos p)
      by (intros p; apply Z.pow_pos_nonneg; lia).
    destruct e as [|p|p]; apply cmp_ge in Hge; apply cmp_le in Hle;
      try lia.
    specialize (Hp p). nia.
Qed.

(** X4: with [max_contour < min_contour] no area passes the test: on a
    frame that is not of size zero [detect_colour] returns the empty list,
    whatever the contours are (no ratio is computed, so the scan cannot
    raise), and logs the summary of zero blobs only. *)
Theorem detect_colour_empty_window `{cv : Cv2}
        (frame : Frame) (min_hsv max_hsv : pixel)
        (min_contour max_contour : Z) (dump : bool) (w : World) :
  is_empty frame = false ->
  max_contour < min_contour ->
  snd (detect_colour frame min_hsv max_hsv min_contour max_contour dump w)
  = Ok []
  /\ log (fst (detect_colour frame min_hsv max_hsv min_contour max_contour
                             dump w))
     = (log w ++ ["Found 0 blobs in frame."])%list.
Proof.
  intros He Hlt.
  destruct (detect_colour_run frame min_hsv max_hsv min_contour max_contour He)
    as (r & Hscan & Hrun).
  rewrite Hrun. cbn [fst snd]. rewrite log_after_log_dump.
  specialize (Hscan w). unfold enumerate in Hscan.
  assert (Hno : forall c, area_ok min_contour max_contour c = false)
    by (intros c; now apply area_test_empty_window).
  destruct (scan_outcome min_contour max_contour
              (contours_found frame min_hsv max_hsv) 0 [])
    as [[Hex _]|[_ (kept & Hr & Hkept & _)]].
  - exfalso. rewrite Exists_exists in Hex. destruct Hex as (c & _ & Hc).
    apply stops_scan_iff in Hc. rewrite Hno in Hc. now destruct Hc.
  - rewrite Hr in Hscan. injection Hscan as <-.
    destruct kept as [|c kept].
    + cbn [app map]. split; [reflexivity|].
      unfold after_log. now rewrite log_detected_run.
    + exfalso. inversion Hkept as [|c' l (_ & Ha & _) _]; subst.
      now rewrite Hno in Ha.
Qed.

(** ** [draw_annotations]: a coordinate [int()] rejects *)

Lemma num_error_raises (x : pynum) (e : exn) :
  num_error x = Some e -> py_int x = Raise e.
Proof.
  destruct x as [z|[s|s| |s m ex]]; simpl; try discriminate;
    now intros [= <-].
Qed.

Lemma num_error_none (x : pynum) : num_error x = None <-> num_finite x.
Proof.
  destruct x as [z|[s|s| |s m ex]]; simpl; split; intros H;
    try reflexivity; try discriminate; exact I.
Qed.

Lemma box_error_none (box : NumBox) :
  box_error box = None <-> box_drawable box.
Proof.
  destruct box as [[[a b] c] d].
  unfold box_error, box_drawable, box_finite, truncated, rect_int32.
  rewrite <- !num_error_none, <- !int32b_spec.
  destruct (num_error a), (num_error b), (num_error c), (num_error d);
    try (split; [discriminate|intros [(Ha & Hb & Hc & Hd) _]; discriminate]).
  destruct (int32b (toward_zero a)), (int32b (toward_zero b)),
           (int32b (toward_zero c)), (int32b (toward_zero d)); simpl;
    split; try discriminate; try (intros _; repeat split; reflexivity);
    intros [_ (Ha & Hb & Hc & Hd)]; discriminate.
Qed.

(** One turn of the loop of [draw_annotations] on a box with an error. *)
Lemma draw_box_error `{cv : Cv2} (frame : Frame) (n : Z) (box : NumBox)
      (e : exn) (w : World) :
  box_error box = Some e ->
  (rect <- int_tuple box ;; draw_bbox frame n rect)%py w = (w, Raise e).
Proof.
  destruct box as [[[a b] c] d]. unfold box_error, int_tuple.
  unfold bind at 1 2 3 4 5. unfold lift.
  destruct (num_error a) as [ea|] eqn:Ha.
  { intros [= <-]. now rewrite (num_error_raises a ea Ha). }
  apply num_error_none in Ha. rewrite (py_int_toward_zero a Ha).
  destruct (num_error b) as [eb|] eqn:Hb.
  { intros [= <-]. now rewrite (num_error_raises b eb Hb). }
  apply num_error_none in Hb. rewrite (py_int_toward_zero b Hb).
  destruct (num_error c) as [ec|] eqn:Hc.
  { intros [= <-]. now rewrite (num_error_raises c ec Hc). }
  apply num_error_none in Hc. rewrite (py_int_toward_zero c Hc).
  destruct (num_error d) as [ed|] eqn:Hd.
  { intros [= <-]. now rewrite (num_error_raises d ed Hd). }
  apply num_error_none in Hd. rewrite (py_int_toward_zero d Hd).
  destruct (int32b (toward_zero a) && int32b (toward_zero b)
            && int32b (toward_zero c) && int32b (toward_zero d)) eqn:H32;
    [discriminate|]. intros [= <-].
  unfold ret. apply draw_bbox_rejects.
  intros (Hx & Hy & Hw & Hh). apply int32b_spec in Hx, Hy, Hw, Hh.
  rewrite Hx, Hy, Hw, Hh in H32. discriminate.
Qed.

(** X5: [draw_annotations] stops at the first box it cannot draw and raises
    that box's error: the error of the first coordinate, in the order of
    the tuple, that [int()] rejects ([ValueError] for a NaN,
    [OverflowError] for an infinity) or, when [int()] accepts all four, the
    error of [cv2.rectangle] for an int outside 32 bits. The boxes after it
    play no part, and neither the log nor the files are touched. *)
Theorem draw_annotations_first_error `{cv : Cv2}
        (frame : Frame) (good : list NumBox) (bad : NumBox)
        (rest : list NumBox) (e : exn) (w : World) :
  Forall box_drawable good ->
  box_error bad = Some e ->
  draw_annotations frame (good ++ bad :: rest) w = (w, Raise e).
Proof.
  intros Hgood Hbad.
  unfold draw_annotations, bind at 1, datetime_now, enumerate.
  generalize (putText frame (strftime (clock w)) (10, shape0 frame - 10)
                      FONT_HERSHEY_SIMPLEX F64.f0_5 (255, 255, 255) 1).
  generalize 0.
  induction Hgood as [|box good [Hfin H32] _ IH]; intros n fr; simpl.
  - unfold bind at 1.
    now rewrite (draw_box_error fr (n + 1) bad e w Hbad).
  - unfold bind at 1. unfold bind at 1.
    rewrite (converts_truncated box Hfin w).
    rewrite (draw_bbox_calls fr (n + 1) (truncated box) w H32).
    apply IH.
Qed.

(** ** [draw_annotations]: longer lists *)

Lemma annotation_calls_app (a b : list Rect) (n : Z) :
  annotation_calls n (a ++ b)
  = (annotation_calls n a ++ annotation_calls (n + len a) b)%list.
Proof.
  revert n; induction a as [|box a IH]; intros n; simpl.
  - unfold len; simpl. now rewrite Z.add_0_r.
  - rewrite IH, <- app_assoc. do 3 f_equal.
    unfold len. cbn [List.length]. lia.
Qed.

(** X6: appending boxes to a list of boxes [draw_annotations] can draw
    (finite coordinates whose ints fit 32 bits) leaves the annotations of
    the boxes before them as they were: the frame for [a ++ b] is the frame
    for [a] with the boxes of [b] drawn over it, numbered on from
    [len a + 1]. *)
Theorem draw_annotations_app `{cv : Cv2}
        (frame : Frame) (a b : list NumBox) (w : World) :
  Forall box_drawable a ->
  Forall box_drawable b ->
  exists frame_a : Frame,
    draw_annotations frame a w = (w, Ok frame_a)
    /\ draw_annotations frame (a ++ b) w
       = (w, Ok (perform_all frame_a
                   (annotation_calls (len a + 1) (map truncated b)))).
Proof.
  intros Ha Hb. eexists. split.
  - apply draw_annotations_drawable, Ha.
  - rewrite (draw_annotations_drawable frame (a ++ b) w)
      by (apply Forall_app; now split).
    rewrite map_app, annotation_calls_app.
    change (perform_all frame (?c :: ?l1 ++ ?l2))
      with (perform_all frame ((c :: l1) ++ l2)).
    rewrite perform_all_app.
    replace (1 + len (map truncated a)) with (len a + 1)
      by (unfold len; rewrite length_map; lia).
    reflexivity.
Qed.

(** ** [draw_annotations]: the labels of one call differ *)

Lemma str_inj (a b : Z) : str a = str b -> a = b.
Proof.
  unfold str. intros H.
  assert (Hnn : forall z, Z.to_int z <> Decimal.Pos Decimal.Nil
                          /\ Z.to_int z <> Decimal.Neg Decimal.Nil).
  { intros [|p|p]; simpl; split; try discriminate;
      intros [= Hp]; now apply (DecimalPos.Unsigned.to_uint_nonnil p). }
  apply (f_equal NilZero.int_of_string) in H.
  rewrite !NilZero.isi in H by apply Hnn.
  injection H as H. now apply DecimalZ.to_int_inj.
Qed.

Lemma player_labels_NoDup (N : nat) : NoDup (player_labels N).
Proof.
  unfold player_labels.
  apply Finite.Injective_map_NoDup; [|apply seq_NoDup].
  intros n m H. simpl in H. injection H as H.
  apply str_inj in H. lia.
Qed.

(** X7: in one call of [draw_annotations] on boxes it can draw (finite
    coordinates whose ints fit 32 bits) no two boxes get the same label,
    and every box gets one. *)
Theorem draw_annotations_labels_distinct `{cv : Cv2}
        (frame : Frame) (boxes : list NumBox) (w : World) :
  Forall box_drawable boxes ->
  exists calls : list draw_call,
    draw_annotations frame boxes w
    = (w, Ok (perform_all frame
                (timestamp_call (clock w) (shape0 frame) :: calls)))
    /\ List.length (text_labels calls) = List.length boxes
    /\ NoDup (text_labels calls).
Proof.
  intros Hfin. exists (annotation_calls 1 (map truncated boxes)).
  split; [apply draw_annotations_drawable, Hfin|].
  rewrite text_labels_players, length_map. split.
  - unfold player_labels. now rewrite length_map, length_seq.
  - apply player_labels_NoDup.
Qed.

(** ** [detect_colour]: widening the window of areas *)

Section ColourExact.
Context `{cv : Cv2}.
Variables min_contour max_contour : Z.

Lemma visit_contour_exact (bboxes : list Rect) (c : Contour) (w : World) :
  stops_scan min_contour max_contour c = false ->
  visit_contour min_contour max_contour bboxes c w
  = (w, Ok (bboxes
            ++ if area_ok min_contour max_contour c && aspect_keeps c
               then [pointSetBoundingRect c] else [])%list).
Proof.
  unfold stops_scan, visit_contour, area_ok, aspect_keeps, rect_height.
  destruct (area_test _ _ _); [|intros _; simpl; now rewrite app_nil_r].
  simpl boundingRect.
  destruct (pointSetBoundingRect c) as [[[x y] bw] bh] eqn:Hrect.
  cbn [snd andb]. intros Hh.
  unfold bind at 1, lift at 1. cbv iota beta.
  unfold aspect_test, bind, lift, py_truediv. rewrite Hh.
  destruct (F64.leb F64.f0_8 _); [reflexivity|].
  destruct (F64.leb _ F64.f1_2); simpl; [reflexivity|].
  now rewrite app_nil_r.
Qed.

Lemma scan_exact (contours : list Contour) :
  Forall (fun c => stops_scan min_contour max_contour c = false) contours ->
  forall (n : Z) (bboxes : list Rect) (w : World),
    for_fold (enumerate_from n contours) bboxes
             (fun bboxes '(i, contour) =>
                visit_contour min_contour max_contour bboxes contour) w
    = (w, Ok (bboxes
              ++ map pointSetBoundingRect
                     (filter (fun c => area_ok min_contour max_contour c
                                       && aspect_keeps c) contours))%list).
Proof.
  induction 1 as [|c contours Hc _ IH]; intros n bboxes w; simpl.
  - now rewrite app_nil_r.
  - unfold bind. rewrite (visit_contour_exact bboxes c w Hc), IH.
    destruct (area_ok min_contour max_contour c && aspect_keeps c); simpl.
    + now rewrite <- app_assoc.
    + now rewrite app_nil_r.
Qed.

(** A result of [detect_colour], in closed form. *)
Lemma detect_colour_returns (frame : Frame) (min_hsv max_hsv : pixel)
      (dump : bool) (w : World) (boxes : list Rect) :
  snd (detect_colour frame min_hsv max_hsv min_contour max_contour dump w)
  = Ok boxes ->
  boxes = map pointSetBoundingRect
              (filter (fun c => area_ok min_contour max_contour c
                                && aspect_keeps c)
                      (contours_found frame min_hsv max_hsv)).
Proof.
  destruct (is_empty frame) eqn:He.
  { rewrite (detect_colour_empty_frame _ _ _ _ _ _ _ He). discriminate. }
  destruct (detect_colour_run frame min_hsv max_hsv min_contour max_contour He)
    as (r & Hscan & Hrun).
  rewrite Hrun. cbn [snd]. intros ->.
  specialize (Hscan w). unfold enumerate in Hscan.
  destruct (scan_outcome min_contour max_contour
              (contours_found frame min_hsv max_hsv) 0 [])
    as [[_ Hr]|[Hall _]].
  - rewrite Hr in Hscan. discriminate.
  - rewrite (scan_exact _ Hall) in Hscan. now injection Hscan as <-.
Qed.

(** [detect_colour] returns on no frame of size zero. *)
Lemma detect_colour_returns_not_empty (frame : Frame) (min_hsv max_hsv : pixel)
      (dump : bool) (w : World) (boxes : list Rect) :
  snd (detect_colour frame min_hsv max_hsv min_contour max_contour dump w)
  = Ok boxes ->
  is_empty frame = false.
Proof.
  destruct (is_empty frame) eqn:He; [|reflexivity].
  rewrite (detect_colour_empty_frame _ _ _ _ _ _ _ He). discriminate.
Qed.

(** The boxes [detect_colour] returns are rectangles of 32-bit ints, as
    [cv2.boundingRect] makes them. *)
Lemma detect_colour_returns_int32 (frame : Frame) (min_hsv max_hsv : pixel)
      (dump : bool) (w : World) (boxes : list Rect) :
  snd (detect_colour frame min_hsv max_hsv min_contour max_contour dump w)
  = Ok boxes ->
  Forall rect_int32 boxes.
Proof.
  intros H. apply detect_colour_returns in H. subst boxes.
  apply Forall_map, Forall_forall. intros c _. apply boundingRect_int32.
Qed.

End ColourExact.

Lemma ge_Z_weaken (a : F64.float) (n n' : Z) :
  n' <= n -> F64.ge_Z a n = true -> F64.ge_Z a n' = true.
Proof.
  intros Hn. unfold F64.ge_Z, F64.cmp_Z.
  destruct a as [s|s| |s m e]; try discriminate; try (intros H; exact H).
  - rewrite !cmp_ge. lia.
  - assert (Hp : forall p, 0 < 2 ^ Z.pos p)
      by (intros p; apply Z.pow_pos_nonneg; lia).
    destruct e as [|p|p]; rewrite !cmp_ge; try lia.
    specialize (Hp p). nia.
Qed.

Lemma le_Z_weaken (a : F64.float) (n n' : Z) :
  n <= n' -> F64.le_Z a n = true -> F64.le_Z a n' = true.
Proof.
  intros Hn. unfold F64.le_Z, F64.cmp_Z.
  destruct a as [s|s| |s m e]; try discriminate; try (intros H; exact H).
  - rewrite !cmp_le. lia.
  - assert (Hp : forall p, 0 < 2 ^ Z.pos p)
      by (intros p; apply Z.pow_pos_nonneg; lia).
    destruct e as [|p|p]; rewrite !cmp_le; try lia.
    specialize (Hp p). nia.
Qed.

(** X8: a wider window of areas loses no box: when [detect_colour] returns
    with [min_contour, max_contour] and with a window that contains it,
    every box of the first result is in the second. *)
Theorem detect_colour_window_monotone `{cv : Cv2}
        (frame : Frame) (min_hsv max_hsv : pixel)
        (min_contour max_contour min_contour' max_contour' : Z)
        (dump dump' : bool) (w w' : World) (boxes boxes' : list Rect) :
  min_contour' <= min_contour ->
  max_contour <= max_contour' ->
  snd (detect_colour frame min_hsv max_hsv min_contour max_contour dump w)
  = Ok boxes ->
  snd (detect_colour frame min_hsv max_hsv min_contour' max_contour' dump' w')
  = Ok boxes' ->
  incl boxes boxes'.
Proof.
  intros Hmin Hmax Hb Hb'.
  apply detect_colour_returns in Hb, Hb'. subst boxes boxes'.
  intros box Hin. apply in_map_iff in Hin. destruct Hin as (c & <- & Hc).
  apply in_map. apply filter_In in Hc. destruct Hc as [Hin Hc].
  apply filter_In. split; [exact Hin|].
  apply andb_true_iff in Hc. destruct Hc as [Ha Hk]. rewrite Hk, andb_true_r.
  unfold area_ok, area_test in *. apply andb_true_iff in Ha.
  destruct Ha as [Hge Hle].
  now rewrite (ge_Z_weaken _ _ _ Hmin Hge), (le_Z_weaken _ _ _ Hmax Hle).
Qed.

(** ** From [detect_colour] to [draw_annotations] *)

(** X9: the boxes [detect_colour] returns can be handed to
    [draw_annotations] as they are, and the two agree on the numbers: the
    box at position [i] of the result is logged as number [i + 1] and is
    drawn, at its own coordinates, with the label ["Player"(i+1)]. *)
Theorem detect_then_annotate `{cv : Cv2}
        (frame : Frame) (min_hsv max_hsv : pixel)
        (min_contour max_contour : Z) (dump : bool) (w : World)
        (boxes : list Rect) (shown : Frame) (w' : World) :
  snd (detect_colour frame min_hsv max_hsv min_contour max_contour dump w)
  = Ok boxes ->
  draw_annotations shown (map of_ints boxes) w'
  = (w', Ok (perform_all shown
               (timestamp_call (clock w') (shape0 shown)
                :: annotation_calls 1 boxes)))
  /\ forall (i : nat) (x y bw bh : Z),
      nth_error boxes i = Some (x, y, bw, bh) ->
      nth_error
        (log (fst (detect_colour frame min_hsv max_hsv min_contour
                                 max_contour dump w)))
        (List.length (log w) + i)
      = Some (str (Z.of_nat i + 1) ++ ", " ++ repr_box (x, y, bw, bh))
      /\ nth_error (annotation_calls 1 boxes) (2 * i)
         = Some (Rectangle (x, y, bw, bh) (0, 255, 0) 2)
      /\ nth_error (annotation_calls 1 boxes) (2 * i + 1)
         = Some (Text ("Player" ++ str (Z.of_nat i + 1)) (x, y)
                      FONT_HERSHEY_SIMPLEX F64.f0_5 (0, 255, 0) 1).
Proof.
  intros Hres.
  split.
  { apply draw_annotations_run; [apply converts_map_of_ints|].
    exact (detect_colour_returns_int32 _ _ _ _ _ _ _ _ Hres). }
  intros i x y bw bh Hi.
  destruct (detect_colour_run frame min_hsv max_hsv min_contour max_contour
              (detect_colour_returns_not_empty _ _ _ _ _ _ _ _ Hres))
    as (r & _ & Hrun).
  rewrite Hrun in Hres |- *. cbn [fst snd] in *. subst r.
  rewrite log_after_log_dump. unfold after_log.
  rewrite log_detected_run. cbn [fst log].
  split.
  - rewrite nth_error_app2 by lia.
    replace (List.length (log w) + i - List.length (log w))%nat with i by lia.
    rewrite nth_error_app1
      by (unfold enumerate; rewrite length_map, length_enumerate_from;
          apply (proj1 (nth_error_Some boxes i)); rewrite Hi; discriminate).
    unfold enumerate.
    rewrite nth_error_map, nth_error_enumerate_from.
    unfold Box, Rect in *. rewrite Hi. reflexivity.
  - destruct (nth_annotation_calls boxes 1 i _ Hi) as [H0 H1].
    rewrite H0, H1. replace (1 + Z.of_nat i) with (Z.of_nat i + 1) by lia.
    split; reflexivity.
Qed.

(** ** The further theorems at concrete inputs *)

Module MoreExamples.
Import Reference Inputs MoreInputs.

Lemma green_square_boxes (min_contour max_contour : Z) :
  (min_contour, max_contour) = (100, 400)
  \/ (min_contour, max_contour) = (50, 500) ->
  snd (@detect_colour cv green_square MIN_DETECT_HSV MAX_DETECT_HSV
                      min_contour max_contour false world0)
  = Ok [(10, 10, 12, 12)].
Proof. intros [[= -> ->]|[= -> ->]]; vm_compute; reflexivity. Qed.


Lemma detect_colour_empty_window_witness :
  is_empty green_square = false
  /\ 400 < 500
  /\ snd (@detect_colour cv green_square MIN_DETECT_HSV MAX_DETECT_HSV
                         500 400 true world0)
     = Ok [].
Proof.
  split; [reflexivity|]. split; [reflexivity|].
  exact (proj1 (@detect_colour_empty_window cv green_square MIN_DETECT_HSV
                  MAX_DETECT_HSV 500 400 true world0 eq_refl eq_refl)).
Defined.

Lemma first_box_drawable :
  Forall box_drawable [(PyFloat f2_5, PyInt 1, PyFloat fm3_75, PyInt 4)].
Proof.
  apply Forall_cons; [|apply Forall_nil].
  split; [repeat split; vm_compute; reflexivity|].
  vm_compute; repeat split; discriminate.
Qed.

Lemma draw_annotations_first_error_witness :
  Forall box_drawable [(PyFloat f2_5, PyInt 1, PyFloat fm3_75, PyInt 4)]
  /\ box_error (PyInt 0, PyInt 0, PyFloat (S754_infinity false),
                PyFloat S754_nan)
     = Some OverflowError
  /\ @draw_annotations cv red_square boxes_with_infinity world0
     = (world0, Raise OverflowError).
Proof.
  split; [exact first_box_drawable|]. split; [reflexivity|].
  exact (@draw_annotations_first_error cv red_square
           [(PyFloat f2_5, PyInt 1, PyFloat fm3_75, PyInt 4)]
           (PyInt 0, PyInt 0, PyFloat (S754_infinity false), PyFloat S754_nan)
           [(PyInt 0, PyInt 0, PyInt 2, PyInt 2)]
           OverflowError world0 first_box_drawable eq_refl).
Defined.

Lemma draw_annotations_app_witness :
  Forall box_drawable [(PyFloat f2_5, PyInt 1, PyFloat fm3_75, PyInt 4)]
  /\ Forall box_drawable float_boxes
  /\ exists frame_a : Frame,
      @draw_annotations cv red_square
                        [(PyFloat f2_5, PyInt 1, PyFloat fm3_75, PyInt 4)]
                        world0
      = (world0, Ok frame_a)
      /\ @draw_annotations cv red_square
                           ([(PyFloat f2_5, PyInt 1, PyFloat fm3_75, PyInt 4)]
                            ++ float_boxes) world0
         = (world0,
            Ok (@perform_all cv frame_a
                  (annotation_calls
                     (len [(PyFloat f2_5, PyInt 1, PyFloat fm3_75, PyInt 4)] + 1)
                     (map truncated float_boxes)))).
Proof.
  split; [exact first_box_drawable|].
  split; [exact Examples.float_boxes_drawable|].
  exact (@draw_annotations_app cv red_square
           [(PyFloat f2_5, PyInt 1, PyFloat fm3_75, PyInt 4)] float_boxes
           world0 first_box_drawable Examples.float_boxes_drawable).
Defined.

Lemma draw_annotations_labels_distinct_witness :
  Forall box_drawable float_boxes
  /\ exists calls : list draw_call,
      @draw_annotations cv red_square float_boxes world0
      = (world0,
         Ok (@perform_all cv red_square
               (timestamp_call (clock world0) (shape0 red_square) :: calls)))
      /\ List.length (text_labels calls) = List.length float_boxes
      /\ NoDup (text_labels calls).
Proof.
  split; [exact Examples.float_boxes_drawable|].
  exact (@draw_annotations_labels_distinct cv red_square float_boxes world0
           Examples.float_boxes_drawable).
Defined.

Lemma detect_colour_window_monotone_witness :
  50 <= 100 /\ 400 <= 500
  /\ snd (@detect_colour cv green_square MIN_DETECT_HSV MAX_DETECT_HSV
                         100 400 false world0)
     = Ok [(10, 10, 12, 12)]
  /\ snd (@detect_colour cv green_square MIN_DETECT_HSV MAX_DETECT_HSV
                         50 500 false world0)
     = Ok [(10, 10, 12, 12)]
  /\ incl [(10, 10, 12, 12)] [(10, 10, 12, 12)].
Proof.
  split; [discriminate|]. split; [discriminate|].
  split; [exact (green_square_boxes 100 400 (or_introl eq_refl))|].
  split; [exact (green_square_boxes 50 500 (or_intror eq_refl))|].
  exact (@detect_colour_window_monotone cv green_square MIN_DETECT_HSV
           MAX_DETECT_HSV 100 400 50 500 false false world0 world0
           [(10, 10, 12, 12)] [(10, 10, 12, 12)]
           ltac:(discriminate) ltac:(discriminate)
           (green_square_boxes 100 400 (or_introl eq_refl))
           (green_square_boxes 50 500 (or_intror eq_refl))).
Defined.

Lemma detect_then_annotate_witness :
  snd (@detect_colour cv green_square MIN_DETECT_HSV MAX_DETECT_HSV
                      100 400 false world0)
  = Ok [(10, 10, 12, 12)]
  /\ @draw_annotations cv green_square (map of_ints [(10, 10, 12, 12)]) world0
     = (world0,
        Ok (@perform_all cv green_square
              (timestamp_call (clock world0) (shape0 green_square)
               :: annotation_calls 1 [(10, 10, 12, 12)]))).
Proof.
  split; [exact (green_square_boxes 100 400 (or_introl eq_refl))|].
  exact (proj1 (@detect_then_annotate cv green_square MIN_DETECT_HSV
                  MAX_DETECT_HSV 100 400 false world0 [(10, 10, 12, 12)]
                  green_square world0
                  (green_square_boxes 100 400 (or_introl eq_refl)))).
Defined.

End MoreExamples.
